(** * Plugin management operators: a shallow embedding

    Embedding of [plugins/plugins/__init__.py] (the install_plugin,
    manage_plugins and build_operator_skeleton operators) together
    with the properties its specification states about them.

    Conventions of the embedding:
    - [ctx.params] is a finite map from field names to JSON-like
      Python values ([value]); JSON numbers with a fractional part are
      not represented;
    - a Python call that may raise returns a [result];
    - calls into the host ([fiftyone.plugins], the file system, the
      sibling [utils] module, [packaging], [importlib.metadata]) are
      either logged in an explicit state or taken from an interface
      class, since their code is not part of this module. *)

From Stdlib Require Import ZArith QArith Ascii.
From stdpp Require Import gmap strings pretty list fin_maps sorting.

Set Warnings "-register-all,-clear-no-such-hyp".

Local Open Scope string_scope.
Local Open Scope Z_scope.

(** ** Python values, exceptions and the operations the module uses *)

Inductive value : Type :=
| VNone
| VBool (b : bool)
| VInt (z : Z)
| VStr (s : string)
| VList (l : list value)
| VDict (d : list (string * value)).

Inductive exn : Type :=
| KeyError (key : string)
| TypeError
| AttributeError
| ValueError (msg : string)
| UnboundLocalError (var : string)
| External (what : string).

Inductive result (A : Type) : Type :=
| Ok (a : A)
| Raise (e : exn).
Arguments Ok {A} a.
Arguments Raise {A} e.

#[global] Instance result_ret : MRet result := @Ok.
#[global] Instance result_bind : MBind result := λ A B k r,
  match r with
  | Ok a => k a
  | Raise e => Raise e
  end.

(** Stateful code that may raise: the state reached is kept when an
    exception propagates, as a mutated Python object is. *)
Definition M (S A : Type) : Type := S → S * result A.

#[global] Instance M_ret {S} : MRet (M S) := λ A a s, (s, Ok a).
#[global] Instance M_bind {S} : MBind (M S) := λ A B k m s,
  match m s with
  | (s', Ok a) => k a s'
  | (s', Raise e) => (s', Raise e)
  end.

Definition lift {S A} (r : result A) : M S A := λ s, (s, r).
Definition modify {S} (f : S → S) : M S unit := λ s, (f s, Ok tt).
Definition gets {S A} (f : S → A) : M S A := λ s, (s, Ok (f s)).

(** lookup in the association list of a [VDict] *)
Fixpoint assoc {A} (k : string) (d : list (string * A)) : option A :=
  match d with
  | [] => None
  | (k', v) :: d' => if String.eqb k' k then Some v else assoc k d'
  end.

(** [d[k] = v] on an insertion-ordered dict: an existing key keeps its
    place, a new key goes last *)
Fixpoint assoc_set {A} (k : string) (v : A) (d : list (string * A))
  : list (string * A) :=
  match d with
  | [] => [(k, v)]
  | (k', v') :: d' =>
      if String.eqb k' k then (k', v) :: d' else (k', v') :: assoc_set k v d'
  end.

(** [bool(v)] *)
Definition truthy (v : value) : bool :=
  match v with
  | VNone => false
  | VBool b => b
  | VInt z => negb (z =? 0)
  | VStr s => negb (String.eqb s "")
  | VList l => match l with [] => false | _ => true end
  | VDict d => match d with [] => false | _ => true end
  end.

(** [a == b]; [bool] is a subtype of [int], so [True == 1]; dicts compare
    without regard to order *)
Fixpoint py_eq (a b : value) {struct a} : bool :=
  match a, b with
  | VNone, VNone => true
  | VBool x, VBool y => Bool.eqb x y
  | VBool x, VInt z => z =? (if x then 1 else 0)
  | VInt z, VBool x => z =? (if x then 1 else 0)
  | VInt x, VInt y => x =? y
  | VStr x, VStr y => String.eqb x y
  | VList l1, VList l2 =>
      (fix go (l1 l2 : list value) : bool :=
         match l1, l2 with
         | [], [] => true
         | x :: l1', y :: l2' => py_eq x y && go l1' l2'
         | _, _ => false
         end) l1 l2
  | VDict d1, VDict d2 =>
      (length d1 =? length d2)%nat &&
      (fix go (d : list (string * value)) : bool :=
         match d with
         | [] => true
         | (k, v) :: d' =>
             match assoc k d2 with
             | Some v' => py_eq v v'
             | None => false
             end && go d'
         end) d1
  | _, _ => false
  end.

(** [obj[key]] for a string key *)
Definition getitem (obj : value) (key : string) : result value :=
  match obj with
  | VDict d =>
      match assoc key d with
      | Some v => Ok v
      | None => Raise (KeyError key)
      end
  | _ => Raise TypeError
  end.

(** [obj.get(key, default)]: only a [dict] has the method *)
Definition attr_get (obj : value) (key : string) (default_value : value)
  : result value :=
  match obj with
  | VDict d => Ok (default default_value (assoc key d))
  | _ => Raise AttributeError
  end.

(** whether [hash(v)] is defined *)
Definition hashable (v : value) : bool :=
  match v with
  | VList _ | VDict _ => false
  | _ => true
  end.

(** [v in s] for a set [s] of strings: unhashable values raise *)
Definition in_str_set (v : value) (s : gset string) : result bool :=
  match v with
  | VStr x => Ok (bool_decide (x ∈ s))
  | VList _ | VDict _ => Raise TypeError
  | _ => Ok false
  end.

(** What the embedding takes from the Python runtime without defining
    it: [repr] of containers, iteration over the characters of a [str]
    and [str.title], all of which depend on Unicode tables, and the text
    [traceback.format_exc()] gives for the exception being handled. *)
Class PyRuntime : Type := {
  repr_container : value → string;
  str_chars : string → list string;
  str_title : string → string;
  format_exc : exn → string
}.

(** a [dict] with string keys, in insertion order *)
Abbreviation dict := (list (string * value)).

(** [d[key]] on such a dict *)
Definition dict_item (d : dict) (key : string) : result value :=
  match assoc key d with
  | Some v => Ok v
  | None => Raise (KeyError key)
  end.

(** the line feed and the double quote *)
Definition nl : string := String "010" "".
Definition dq : string := String "034" "".

(** [sep.join(parts)] *)
Fixpoint join (sep : string) (parts : list string) : string :=
  match parts with
  | [] => ""
  | [s] => s
  | s :: parts' => s +:+ sep +:+ join sep parts'
  end.

(** a text given line by line *)
Definition lines (l : list string) : string := join nl l.

(** [s.split(c)] for a one-character separator *)
Fixpoint split_on (c : ascii) (s : string) : list string :=
  match s with
  | EmptyString => [EmptyString]
  | String a s' =>
      if Ascii.eqb a c then EmptyString :: split_on c s'
      else match split_on c s' with
           | [] => [String a EmptyString]
           | w :: ws => String a w :: ws
           end
  end.

(** [s.replace(old, new)] for a non-empty [old]: the occurrences are
    replaced from left to right, without overlap.  [skip] counts the
    characters of an occurrence still to be dropped. *)
Fixpoint replace_from (old new : string) (skip : nat) (s : string) : string :=
  match s with
  | EmptyString => EmptyString
  | String c s' =>
      match skip with
      | S k => replace_from old new k s'
      | O =>
          if String.prefix old s
          then new +:+ replace_from old new (String.length old - 1) s'
          else String c (replace_from old new 0 s')
      end
  end.

Definition replace (old new s : string) : string := replace_from old new 0 s.

(** [textwrap.dedent], as the regular-expression implementation of
    CPython up to 3.13 defines it: lines of blanks and tabs become empty,
    the margin is the longest common prefix of the leading blanks and tabs
    of the other non-empty lines, and it is removed from every line that
    starts with it. *)
Definition blank (c : ascii) : bool := Ascii.eqb c " " || Ascii.eqb c "009".

Fixpoint leading_blanks (s : string) : string :=
  match s with
  | String c s' => if blank c then String c (leading_blanks s') else ""
  | EmptyString => ""
  end.

Definition blank_line (s : string) : bool := String.eqb (leading_blanks s) s.

Fixpoint common_prefix (a b : string) : string :=
  match a, b with
  | String x a', String y b' =>
      if Ascii.eqb x y then String x (common_prefix a' b') else ""
  | _, _ => ""
  end.

Definition margin_of (ls : list string) : option string :=
  foldl (λ margin l,
           if blank_line l then margin
           else
             let indent := leading_blanks l in
             match margin with
             | None => Some indent
             | Some m => Some (common_prefix m indent)
             end)
        None ls.

Definition remove_margin (margin l : string) : string :=
  if String.prefix margin l
  then String.substring (String.length margin)
         (String.length l - String.length margin) l
  else l.

Definition dedent (text : string) : string :=
  let ls := (λ l, if blank_line l then "" else l) <$> split_on "010" text in
  match margin_of ls with
  | Some margin => join nl (remove_margin margin <$> ls)
  | None => join nl ls
  end.

(** [re.sub(r"\n{3,}", "\n\n", text)]: every run of three or more line
    feeds becomes two.  [run] counts the line feeds just read. *)
Fixpoint squeeze_newlines (run : nat) (s : string) : string :=
  let pending := join "" (replicate (if (3 <=? run)%nat then 2%nat else run) nl) in
  match s with
  | EmptyString => pending
  | String c s' =>
      if Ascii.eqb c "010" then squeeze_newlines (S run) s'
      else pending +:+ String c (squeeze_newlines 0 s')
  end.

(** [ctx.params]: the flat mapping from field names to submitted values *)
Abbreviation params := (gmap string value).

(** [ctx.params.get(key, default)] *)
Definition params_get (p : params) (key : string) (default_value : value)
  : value :=
  default default_value (p !! key).

(** [ctx.params[key]] *)
Definition params_item (p : params) (key : string) : result value :=
  match p !! key with
  | Some v => Ok v
  | None => Raise (KeyError key)
  end.

Section formatting.
Context `{PyRuntime}.

(** [str(v)], which is what an f-string field [{v}] inserts *)
Definition py_str (v : value) : string :=
  match v with
  | VNone => "None"
  | VBool true => "True"
  | VBool false => "False"
  | VInt z => pretty z
  | VStr s => s
  | VList _ | VDict _ => repr_container v
  end.

(** [iter(v)]: the items a [for] loop, [set(v)] or [str.join(v)] sees *)
Definition py_iter (v : value) : result (list value) :=
  match v with
  | VList l => Ok l
  | VDict d => Ok (VStr <$> d.*1)
  | VStr s => Ok (VStr <$> str_chars s)
  | _ => Raise TypeError
  end.

End formatting.

(** ** The form description ([fiftyone.operators.types]) *)

Module types.

Record choice : Type := Choice {
  choice_value : value;
  choice_label : value;
  choice_description : value
}.

Inductive view : Type :=
| View (label : string)
| TabsView (choices : list choice)
| Dropdown (multiple : bool) (choices : list choice)
| MarkdownView (read_only : bool) (space : option Q)
| HiddenView (read_only : bool) (space : option Q)
| SwitchView (space : option Q)
| CodeView (language : string) (readOnly : bool)
| Header (label : string) (description : option string) (divider : bool)
| Error (label : string) (description : string)
| Warning (label : string)
| Notice (label : string).

Inductive ptype : Type :=
| String
| Boolean
| Enum (values : list value)
| List (element : ptype)
| Object (properties : list (string * property))
| OfView (v : view)
with property : Type :=
| Property (type : ptype) (default : value) (required : bool)
    (label description : option string) (view_of : option view)
    (invalid : bool).

(** [choices.add_choice(value, label=..., description=...)] *)
Definition add_choice (v l d : value) (cs : list choice) : list choice :=
  cs ++ [Choice v l d].

(** [choices.values()] *)
Definition values (cs : list choice) : list value := choice_value <$> cs.

(** an [Object] under construction is its ordered property dict *)
Abbreviation object := (list (string * property)).

(** [obj.define_property(name, type, **kwargs)] *)
Definition define_property (name : string) (ty : ptype) (dflt : value)
    (req : bool) (lbl desc : option string) (v : option view)
    (o : object) : object :=
  assoc_set name (Property ty dflt req lbl desc v false) o.

(** [obj.view(name, view)]: the view is both the type and the view *)
Definition view_prop (name : string) (v : view) (o : object) : object :=
  define_property name (OfView v) VNone false None None (Some v) o.

(** [obj.str(name, ...)], [obj.bool(name, ...)], [obj.enum(name, values, ...)]
    and [obj.list(name, element_type, ...)] *)
Definition str_prop (name : string) := define_property name String.
Definition bool_prop (name : string) := define_property name Boolean.
Definition enum_prop (name : string) (vs : list value) :=
  define_property name (Enum vs).
Definition list_prop (name : string) (element : ptype) :=
  define_property name (List element).

(** [prop.invalid = True] on the property object stored under [name] *)
Definition set_invalid (name : string) (o : object) : object :=
  match assoc name o with
  | Some (Property ty dflt req lbl desc v _) =>
      assoc_set name (Property ty dflt req lbl desc v true) o
  | None => o
  end.

End types.

(** ** The host's plugin registry ([fiftyone.plugins])

    The registry is the host's; the operators only read it and ask for
    changes.  The state keeps the installed definitions, the names the
    host reports as enabled, and the log of the calls made. *)

Record plugin_definition : Type := PluginDefinition {
  name : string;
  url : value;
  description : value;
  version : value
}.

Inductive host_call : Type :=
| enable_plugin_call (name : value)
| disable_plugin_call (name : value)
| download_plugin_call (url_or_gh_repo plugin_names : value)
    (overwrite : bool).

Record host : Type := Host {
  installed : list plugin_definition;
  enabled : gset string;
  calls : list host_call
}.

(** [fop.list_plugins(enabled="all")] *)
Definition list_plugins (h : host) : list plugin_definition := installed h.

(** [fop.list_enabled_plugins()] *)
Definition list_enabled_plugins (h : host) : list string :=
  filter (λ n, n ∈ enabled h) (name <$> installed h).

(** [fop.enable_plugin(name)] *)
Definition enable_plugin (n : value) (h : host) : host :=
  Host (installed h)
    (match n with VStr s => {[s]} ∪ enabled h | _ => enabled h end)
    (calls h ++ [enable_plugin_call n]).

(** [fop.disable_plugin(name)] *)
Definition disable_plugin (n : value) (h : host) : host :=
  Host (installed h)
    (match n with VStr s => enabled h ∖ {[s]} | _ => enabled h end)
    (calls h ++ [disable_plugin_call n]).

(** [fop.download_plugin(url_or_gh_repo, plugin_names=..., overwrite=...)]:
    only the call is recorded *)
Definition download_plugin (loc names : value) (overwrite : bool) (h : host)
  : host :=
  Host (installed h) (enabled h)
    (calls h ++ [download_plugin_call loc names overwrite]).

(** ** manage_plugins: the enablement tab *)

(** [f"enablement{i}"] *)
Definition enablement_prop_name (i : nat) : string :=
  "enablement" +:+ pretty i.

(** One pass through the body of the [while] loop of
    [_plugin_enablement], after the [break] test. *)
Definition enablement_body (enabled_plugins : gset string) (obj : value)
  : M host unit :=
  name ← lift (getitem obj "name");
  enabled ← lift (getitem obj "enabled");
  actual_enabled ← lift (in_str_set name enabled_plugins);
  if negb (py_eq enabled (VBool actual_enabled)) then
    if truthy enabled then modify (enable_plugin name)
    else modify (disable_plugin name)
  else mret tt.

Section enablement_form.
Context `{PyRuntime}.

(** The body of the [for] loop of [_plugin_enablement_inputs]: the state
    is the form under construction and [num_edited]. *)
Definition enablement_row (p : params) (enabled_plugins : gset string)
    (i : nat) (plugin : plugin_definition)
  : M (types.object * nat) unit :=
  let prop_name := enablement_prop_name i in
  let actual_enabled := bool_decide (name plugin ∈ enabled_plugins) in
  enabled ← lift (attr_get (params_get p prop_name (VDict [])) "enabled"
                    (VBool actual_enabled));
  let edited := negb (py_eq enabled (VBool actual_enabled)) in
  let obj : types.object := [] in
  let obj :=
    types.str_prop "markdown_name"
      (VStr ("[" +:+ name plugin +:+ "](" +:+ py_str (url plugin) +:+ ")"))
      false None None (Some (types.MarkdownView true (Some 3%Q))) obj in
  let obj :=
    types.str_prop "description" (description plugin)
      false None None (Some (types.MarkdownView true (Some (13 # 2)%Q))) obj in
  let obj :=
    types.str_prop "name" (VStr (name plugin))
      false None None (Some (types.HiddenView true (Some (1 # 2)%Q))) obj in
  let obj :=
    types.bool_prop "enabled" (VBool actual_enabled)
      false (Some (if edited then "(edited)" else "")) None
      (Some (types.SwitchView (Some 2%Q))) obj in
  modify (λ '(inputs, num_edited),
    (types.define_property prop_name (types.Object obj) VNone false None None
       None inputs,
     (num_edited + (if edited then 1 else 0))%nat)).

(** [for i, plugin in enumerate(plugins, i)] *)
Fixpoint enablement_rows (p : params) (enabled_plugins : gset string)
    (i : nat) (plugins : list plugin_definition)
  : M (types.object * nat) unit :=
  match plugins with
  | [] => mret tt
  | plugin :: plugins' =>
      enablement_row p enabled_plugins i plugin ;;
      enablement_rows p enabled_plugins (S i) plugins'
  end.

Definition _plugin_enablement_inputs (p : params) (h : host)
    (inputs : types.object) : types.object * result unit :=
  let obj : types.object := [] in
  let obj :=
    types.str_prop "name" (VStr "**Name**") false None None
      (Some (types.MarkdownView true (Some 3%Q))) obj in
  let obj :=
    types.str_prop "description" (VStr "**Description**") false None None
      (Some (types.MarkdownView true (Some 7%Q))) obj in
  let obj :=
    types.str_prop "enabled" (VStr "**Enabled**") false None None
      (Some (types.MarkdownView true (Some 2%Q))) obj in
  let inputs :=
    types.define_property "enablement_header" (types.Object obj) VNone false
      None None None inputs in
  let enabled_plugins : gset string := list_to_set (list_enabled_plugins h) in
  match enablement_rows p enabled_plugins 1 (list_plugins h) (inputs, O) with
  | ((inputs, _), Raise e) => (inputs, Raise e)
  | ((inputs, num_edited), Ok _) =>
      let view :=
        if (0 <? num_edited)%nat then
          types.Notice
            ("You are about to change the enablement of "
             +:+ pretty num_edited +:+ " plugins")
        else types.Notice "You have not made any changes" in
      let inputs := types.view_prop "enablement_status" view inputs in
      if (num_edited =? 0)%nat
      then (types.set_invalid "enablement_status" inputs, Ok tt)
      else (inputs, Ok tt)
  end.

End enablement_form.

(** The [while True] loop; [i] is the counter before [i += 1].  [None]
    means that [fuel] iterations did not reach the [break]. *)
Fixpoint enablement_loop (fuel : nat) (p : params)
    (enabled_plugins : gset string) (i : nat) (h : host)
  : option (host * result unit) :=
  match fuel with
  | O => None
  | S fuel' =>
      let i := S i in
      let prop_name := enablement_prop_name i in
      let obj := params_get p prop_name VNone in
      match obj with
      | VNone => Some (h, Ok tt)
      | _ =>
          match enablement_body enabled_plugins obj h with
          | (h', Ok _) => enablement_loop fuel' p enabled_plugins i h'
          | (h', Raise e) => Some (h', Raise e)
          end
      end
  end.

(** The loop leaves at the first absent key, and the keys are pairwise
    different, so one more iteration than [ctx.params] has entries is
    always enough. *)
Definition _plugin_enablement (p : params) (h : host)
  : option (host * result unit) :=
  let enabled_plugins : gset string := list_to_set (list_enabled_plugins h) in
  enablement_loop (S (size p)) p enabled_plugins 0 h.

Module ManagePlugins.

Definition execute (p : params) (h : host) : option (host * result unit) :=
  let tab := params_get p "tab" VNone in
  if py_eq tab (VStr "ENABLEMENT") then _plugin_enablement p h
  else Some (h, Ok tt).

End ManagePlugins.

(** ** manage_plugins: the requirements tab *)

(** What the checkers use of [packaging.requirements.Requirement], of
    [importlib.metadata] and of [fiftyone.constants]: parsing gives the
    requirement's [name] and [specifier] or raises; [specifier_len] is
    [len(specifier)], which decides [not req.specifier]. *)
Class Packaging : Type := {
  specifier_set : Type;
  Requirement : string → result (string * specifier_set);
  specifier_len : specifier_set → nat;
  contains : specifier_set → string → result bool;
  metadata_version : string → result string;
  VERSION : string
}.

(** A local variable that an earlier statement may have left unbound. *)
Definition local {A} (x : option A) (var : string) : result A :=
  match x with
  | Some a => Ok a
  | None => Raise (UnboundLocalError var)
  end.

Section requirements.
Context `{Packaging}.

(** [not req.specifier or req.specifier.contains(version)] *)
Definition specifier_accepts (req : string * specifier_set) (version : string)
  : result bool :=
  if (specifier_len req.2 =? 0)%nat then Ok true
  else contains req.2 version.

Definition _check_fiftyone_requirement (req_str : string)
  : string * string * bool :=
  let version := VERSION in
  let satisfied :=
    match req ← Requirement req_str; specifier_accepts req version with
    | Ok satisfied => satisfied
    | Raise _ => false
    end in
  (req_str, version, satisfied).

Definition _check_package_requirement (req_str : string)
  : string * option string * bool :=
  let req : option (string * specifier_set) :=
    match Requirement req_str with
    | Ok req => Some req
    | Raise _ => None
    end in
  let version : option string :=
    match req ← local req "req"; metadata_version req.1 with
    | Ok version => Some version
    | Raise _ => None
    end in
  let satisfied :=
    match
      match version with
      | None => Ok false
      | Some version => req ← local req "req"; specifier_accepts req version
      end
    with
    | Ok satisfied => satisfied
    | Raise _ => false
    end in
  (req_str, version, satisfied).

End requirements.

(** *** A reference instance of the packaging interface

    The fragment of PEP 440 and PEP 508 that the specification's example
    needs: a distribution name followed by comma-separated clauses
    [>=], [<=], [>], [<], [==], [!=] over final releases [N(.N)*].
    Anything outside the fragment is rejected as malformed. *)
Module pep440.

Inductive operator : Type := OpGe | OpLe | OpGt | OpLt | OpEq | OpNe.

Abbreviation release := (list nat).

Definition digit (c : ascii) : option nat :=
  let n := nat_of_ascii c in
  if ((48 <=? n) && (n <=? 57))%nat then Some (n - 48)%nat else None.

Fixpoint parse_digits (acc : nat) (s : string) : option nat :=
  match s with
  | EmptyString => Some acc
  | String c s' =>
      match digit c with
      | Some d => parse_digits (10 * acc + d) s'
      | None => None
      end
  end.

Definition parse_number (s : string) : option nat :=
  match s with
  | EmptyString => None
  | _ => parse_digits 0 s
  end.

Fixpoint lstrip (s : string) : string :=
  match s with
  | String " " s' => lstrip s'
  | _ => s
  end.

Definition strip (s : string) : string :=
  String.rev (lstrip (String.rev (lstrip s))).

Definition parse_release (s : string) : option release :=
  mapM parse_number (split_on "." s).

(** comparison of releases, the shorter one padded with zeros *)
Fixpoint compare_release (a b : release) : comparison :=
  match a, b with
  | [], [] => Eq
  | x :: a', [] =>
      match Nat.compare x 0 with Eq => compare_release a' [] | c => c end
  | [], y :: b' =>
      (fix zeros (b : release) : comparison :=
         match b with
         | [] => Eq
         | y :: b' => match Nat.compare 0 y with Eq => zeros b' | c => c end
         end) (y :: b')
  | x :: a', y :: b' =>
      match Nat.compare x y with Eq => compare_release a' b' | c => c end
  end.

Definition satisfies (v : release) (clause : operator * release) : bool :=
  let c := compare_release v clause.2 in
  match clause.1, c with
  | OpGe, (Eq | Gt) | OpLe, (Eq | Lt) | OpGt, Gt | OpLt, Lt | OpEq, Eq => true
  | OpNe, (Lt | Gt) => true
  | _, _ => false
  end.

Definition parse_clause (s : string) : option (operator * release) :=
  let clause (op : operator) (rest : string) :=
    r ← parse_release (strip rest); Some (op, r) in
  match strip s with
  | String ">" (String "=" r) => clause OpGe r
  | String "<" (String "=" r) => clause OpLe r
  | String "=" (String "=" r) => clause OpEq r
  | String "!" (String "=" r) => clause OpNe r
  | String ">" r => clause OpGt r
  | String "<" r => clause OpLt r
  | _ => None
  end.

Definition name_char (c : ascii) : bool :=
  let n := nat_of_ascii c in
  ((48 <=? n) && (n <=? 57) || (65 <=? n) && (n <=? 90)
   || (97 <=? n) && (n <=? 122) || (n =? 45) || (n =? 46) || (n =? 95))%nat.

Fixpoint span_name (s : string) : string * string :=
  match s with
  | String c s' =>
      if name_char c
      then let '(n, r) := span_name s' in (String c n, r)
      else (EmptyString, s)
  | EmptyString => (EmptyString, EmptyString)
  end.

Definition parse_requirement (s : string)
  : result (string * list (operator * release)) :=
  let '(n, rest) := span_name (strip s) in
  match n, strip rest with
  | EmptyString, _ => Raise (External "InvalidRequirement")
  | _, EmptyString => Ok (n, [])
  | _, rest =>
      match mapM parse_clause (split_on "," rest) with
      | Some spec => Ok (n, spec)
      | None => Raise (External "InvalidRequirement")
      end
  end.

Definition spec_contains (spec : list (operator * release)) (version : string)
  : result bool :=
  match parse_release version with
  | Some v => Ok (forallb (satisfies v) spec)
  | None => Raise (External "InvalidVersion")
  end.

(** The interface over a table of installed distributions. *)
Definition packaging (installed : string → result string)
    (fiftyone_version : string) : Packaging :=
  {| specifier_set := list (operator * release);
     Requirement := parse_requirement;
     specifier_len := length;
     contains := spec_contains;
     metadata_version := installed;
     VERSION := fiftyone_version |}.

End pep440.

(** Installed distributions of the examples: only [numpy], at 0.9. *)
Definition sample_installed (dist : string) : result string :=
  if String.eqb dist "numpy" then Ok "0.9"
  else Raise (External "PackageNotFoundError").

(** ** install_plugin *)

(** The sibling module [utils], whose code is not part of this file:
    discovery of the plugins at a location, the two zoo listings, and the
    metadata of one plugin.  Plugins are dicts with the keys [name],
    [description], [url] and, once hydrated, [version]. *)
Class Utils : Type := {
  find_plugins : value → result (list dict);
  get_zoo_plugins : result (list dict * list dict);
  get_plugin_info : value → result dict
}.

(** [multiprocessing.dummy.Pool.imap_unordered] hands the results back in
    the order in which the workers finish: some rearrangement of the
    tasks. *)
Class Scheduler : Type := {
  completion_order : nat → list (string * value) → list (string * value);
  completion_order_perm processes tasks :
    completion_order processes tasks ≡ₚ tasks
}.

Inductive pool_event : Type :=
| direct_fetch (url : value)
| pool_created (processes : nat)
| pool_imap_unordered (tasks : list (string * value)).

(** The dict [_hydrate_plugin_info] mutates, and what it did to fetch. *)
Record hydration : Type := Hydration {
  hydrated : gmap string dict;
  pool_log : list pool_event
}.

Definition set_plugin (name : string) (info : dict) (s : hydration)
  : hydration :=
  Hydration (<[name := info]> (hydrated s)) (pool_log s).

Definition log_event (e : pool_event) (s : hydration) : hydration :=
  Hydration (hydrated s) (pool_log s ++ [e]).

Section install.
Context `{PyRuntime} `{Utils} `{Scheduler}.

Definition _do_get_plugin_info (task : string * value)
  : result (string * dict) :=
  let '(name, url) := task in
  info ← get_plugin_info url;
  Ok (name, info).

(** The body of the first loop of [_hydrate_plugin_info]. *)
Definition add_task (acc : result (gmap string value)) (item : string * dict)
  : result (gmap string value) :=
  let '(name, plugin) := item in
  tasks ← acc;
  match assoc "version" plugin with
  | None => url ← dict_item plugin "url"; Ok (<[name := url]> tasks)
  | Some _ => Ok tasks
  end.

(** The first loop of [_hydrate_plugin_info]: the plugins without a
    [version] key, with their urls. *)
Definition hydrate_tasks (plugins_map : gmap string dict)
  : result (gmap string value) :=
  foldl add_task (Ok ∅) (map_to_list plugins_map).

(** [for name, info in pool.imap_unordered(_do_get_plugin_info, tasks)] *)
Fixpoint hydrate_from_pool (completed : list (string * value))
  : M hydration unit :=
  match completed with
  | [] => mret tt
  | task :: completed' =>
      '(name, info) ← lift (_do_get_plugin_info task);
      modify (set_plugin name info) ;;
      hydrate_from_pool completed'
  end.

Definition _hydrate_plugin_info : M hydration unit :=
  plugins_map ← gets hydrated;
  tasks ← lift (hydrate_tasks plugins_map);
  let num_tasks := size tasks in
  if (num_tasks =? 0)%nat then mret tt
  else
    (if (num_tasks =? 1)%nat then
       match map_to_list tasks with
       | (name, url) :: _ =>
           modify (log_event (direct_fetch url)) ;;
           info ← lift (get_plugin_info url);
           modify (set_plugin name info)
       | [] => lift (Raise (External "StopIteration"))
       end
     else mret tt) ;;
    let processes := (num_tasks `min` 4)%nat in
    let tasks := map_to_list tasks in
    modify (log_event (pool_created processes)) ;;
    modify (log_event (pool_imap_unordered tasks)) ;;
    hydrate_from_pool (completion_order processes tasks).

(** [sorted(set(plugin_names) & set(curr_plugins_map.keys()))] *)
Definition update_names_of (plugin_names : value)
    (curr_plugins_map : gmap string plugin_definition)
  : result (list string) :=
  items ← py_iter plugin_names;
  if forallb hashable items then
    let names : gset string :=
      list_to_set (omap (λ v, match v with VStr s => Some s | _ => None end)
                     items) in
    Ok (merge_sort String.le (elements (names ∩ dom curr_plugins_map)))
  else Raise TypeError.

(** [{p["name"]: p for p in plugins if p["name"] in update_names}] *)
Definition plugins_map_of (plugins : list dict) (update_names : list string)
  : result (gmap string dict) :=
  foldl (λ acc p,
           m ← acc;
           n ← dict_item p "name";
           match n with
           | VStr s =>
               if bool_decide (s ∈ update_names) then Ok (<[s := p]> m)
               else Ok m
           | _ => Ok m
           end)
        (Ok ∅) plugins.

Definition _get_updates (plugin_names : value) (plugins : list dict)
    (h : host) : result (list (string * value * value)) :=
  let curr_plugins_map : gmap string plugin_definition :=
    foldl (λ m p, <[name p := p]> m) ∅ (list_plugins h) in
  update_names ← update_names_of plugin_names curr_plugins_map;
  match update_names with
  | [] => Ok []
  | _ =>
      plugins_map ← plugins_map_of plugins update_names;
      let '(after, r) := _hydrate_plugin_info (Hydration plugins_map []) in
      let plugins_map := hydrated after in
      r ;;
      mapM (M := result)
        (λ name,
           curr_plugin ← match curr_plugins_map !! name with
                         | Some c => Ok c
                         | None => Raise (KeyError name)
                         end;
           plugin ← match plugins_map !! name with
                    | Some pl => Ok pl
                    | None => Raise (KeyError name)
                    end;
           ver ← dict_item plugin "version";
           Ok (name, version curr_plugin, ver))
        update_names
  end.

End install.

(** ** install_plugin: the form and the install step *)

(** the instructions of the GitHub tab, after [.strip()] *)
Definition gh_repo_instructions : string :=
"Provide a location to download the plugin(s) from, which can be:

-   A GitHub repo URL like `https://github.com/<user>/<repo>`
-   A GitHub ref like
    `https://github.com/<user>/<repo>/tree/<branch>` or
    `https://github.com/<user>/<repo>/commit/<commit>`
-   A GitHub ref string like `<user>/<repo>[/<ref>]`".

Section install_form.
Context `{PyRuntime} `{Utils} `{Scheduler}.

(** a dropdown with one choice per plugin *)
Definition plugin_choices_of (plugins : list dict)
  : result (list types.choice) :=
  foldl (λ acc plugin,
           choices ← acc;
           n ← dict_item plugin "name";
           l ← dict_item plugin "name";
           d ← dict_item plugin "description";
           Ok (types.add_choice n l d choices))
        (Ok []) plugins.

(** The branch [tab == "GITHUB"].  [None] means that the builder has
    returned; otherwise the branch leaves [plugin_names] and [plugins]. *)
Definition install_github_tab (p : params)
  : M types.object (option (value * list dict)) :=
  modify (types.str_prop "gh_repo_instructions" (VStr gh_repo_instructions)
            false None None (Some (types.MarkdownView true None))) ;;
  modify (types.str_prop "gh_repo" VNone true None None None) ;;
  let gh_repo := params_get p "gh_repo" VNone in
  if negb (truthy gh_repo) then mret None
  else
    match find_plugins gh_repo with
    | Raise e =>
        modify (types.view_prop "error"
                  (types.Error
                     ("Failed to find plugins at " +:+ py_str gh_repo)
                     (format_exc e))) ;;
        modify (types.set_invalid "error") ;;
        mret None
    | Ok [] =>
        modify (types.view_prop "warning"
                  (types.Warning ("No plugins found at " +:+ py_str gh_repo))) ;;
        modify (types.set_invalid "warning") ;;
        mret None
    | Ok plugins =>
        (if (1 <? length plugins)%nat then
           plugin_choices ← lift (plugin_choices_of plugins);
           modify (types.list_prop "plugin_names" types.String VNone false
                     (Some "Plugins")
                     (Some ("An optional list of plugins to install. "
                            +:+ "By default, all plugins are installed"))
                     (Some (types.Dropdown true plugin_choices)))
         else mret tt) ;;
        let plugin_names := params_get p "plugin_names" VNone in
        if negb (truthy plugin_names) then
          names ← lift (mapM (M := result)
                          (λ plugin, dict_item plugin "name") plugins);
          mret (Some (VList names, plugins))
        else mret (Some (plugin_names, plugins))
    end.

(** The [else] branch: the Voxel51 and Community tabs. *)
Definition install_zoo_tab (p : params) (tab : value)
  : M types.object (option (value * list dict)) :=
  match get_zoo_plugins with
  | Raise e =>
      modify (types.view_prop "error"
                (types.Error "Failed to retrieve zoo plugins"
                   (format_exc e))) ;;
      modify (types.set_invalid "error") ;;
      mret None
  | Ok (voxel51_plugins, community_plugins) =>
      let '(param, plugins, description) :=
        if py_eq tab (VStr "VOXEL51") then
          ("voxel51_plugin", voxel51_plugins,
           "Choose a Voxel51-authored plugin from the zoo to install")
        else
          ("community_plugin", community_plugins,
           "Choose a community-authored plugin from the zoo to install") in
      plugin_choices ← lift (plugin_choices_of plugins);
      modify (types.enum_prop param (types.values plugin_choices) VNone true
                (Some "Plugin") (Some description)
                (Some (types.Dropdown false plugin_choices))) ;;
      let plugin_name := params_get p param VNone in
      if truthy plugin_name then mret (Some (VList [plugin_name], plugins))
      else mret (Some (VNone, plugins))
  end.

(** the notice about the plugins that would be updated *)
Definition install_update_notice (tab plugin_names : value)
    (updates : list (string * value * value)) : M types.object unit :=
  match updates with
  | [] => mret tt
  | _ =>
      tab ← lift (match tab with VStr t => Ok t | _ => Raise TypeError end);
      names ← lift (items ← py_iter plugin_names;
                    mapM (M := result)
                      (λ v, match v with
                            | VStr s => Ok s
                            | _ => Raise TypeError
                            end) items);
      let prop_name := tab +:+ "_" +:+ join "_" names +:+ "_update_str" in
      let update_str :=
        "You are about to update the following plugins:" +:+ nl
        +:+ join nl
              ((λ '(name, curr_ver, ver),
                  "- `" +:+ name +:+ "`: `v" +:+ py_str curr_ver
                  +:+ "` -> `v" +:+ py_str ver +:+ "`") <$> updates) in
      modify (types.str_prop prop_name (VStr update_str) false None None
                (Some (types.MarkdownView true None))) ;;
      let update_notice := "Are you sure you want to update these plugins?" in
      modify (types.view_prop "update_notice" (types.Notice update_notice))
  end.

Definition _install_plugin_inputs (p : params) (h : host)
  : M types.object unit :=
  let tab_choices : list types.choice := [] in
  let tab_choices :=
    types.add_choice (VStr "GITHUB") (VStr "GitHub") VNone tab_choices in
  let tab_choices :=
    types.add_choice (VStr "VOXEL51") (VStr "Voxel51") VNone tab_choices in
  let tab_choices :=
    types.add_choice (VStr "COMMUNITY") (VStr "Community") VNone tab_choices in
  modify (types.enum_prop "tab" (types.values tab_choices) (VStr "GITHUB")
            false None None (Some (types.TabsView tab_choices))) ;;
  let tab := params_get p "tab" (VStr "GITHUB") in
  branch ← (if py_eq tab (VStr "GITHUB") then install_github_tab p
            else install_zoo_tab p tab);
  match branch with
  | None => mret tt
  | Some (VNone, _) => mret tt
  | Some (plugin_names, plugins) =>
      updates ← lift (_get_updates plugin_names plugins h);
      install_update_notice tab plugin_names updates
  end.

Definition _get_zoo_plugin_location (plugin_name : value) : result value :=
  '(voxel51_plugins, community_plugins) ← get_zoo_plugins;
  (fix search (plugins : list dict) : result value :=
     match plugins with
     | [] => Ok VNone
     | plugin :: plugins' =>
         n ← dict_item plugin "name";
         if py_eq n plugin_name then dict_item plugin "url"
         else search plugins'
     end) (voxel51_plugins ++ community_plugins)%list.

(** [gh_repo] and [plugin_names] are bound only inside the three
    branches. *)
Definition _install_plugin (p : params) : M host unit :=
  let tab := params_get p "tab" VNone in
  '(gh_repo, plugin_names) ← lift (
    if py_eq tab (VStr "GITHUB") then
      gh_repo ← params_item p "gh_repo";
      let plugin_names := params_get p "plugin_names" VNone in
      Ok (Some gh_repo, Some plugin_names)
    else if py_eq tab (VStr "VOXEL51") then
      plugin_name ← params_item p "voxel51_plugin";
      gh_repo ← _get_zoo_plugin_location plugin_name;
      Ok (Some gh_repo, Some (VList [plugin_name]))
    else if py_eq tab (VStr "COMMUNITY") then
      plugin_name ← params_item p "community_plugin";
      gh_repo ← _get_zoo_plugin_location plugin_name;
      Ok (Some gh_repo, Some (VList [plugin_name]))
    else Ok (None, None));
  gh_repo ← lift (local gh_repo "gh_repo");
  plugin_names ← lift (local plugin_names "plugin_names");
  modify (download_plugin gh_repo plugin_names true).

End install_form.

Module InstallPlugin.

Definition resolve_input `{PyRuntime} `{Utils} `{Scheduler}
    (p : params) (h : host) : result types.property :=
  let inputs : types.object := [] in
  match _install_plugin_inputs p h inputs with
  | (inputs, Ok _) =>
      Ok (types.Property (types.Object inputs) VNone false None None
            (Some (types.View "Install plugin")) false)
  | (_, Raise e) => Raise e
  end.

Definition execute `{Utils} (p : params) : M host unit :=
  _install_plugin p.

End InstallPlugin.

(** ** build_operator_skeleton: the generated code *)

Definition TRIGGER_CHOICES : list string :=
  ["Reload Samples"; "Reload Dataset"; "Set View"; "Open A Panel"].

Definition LAYOUT_CHOICES : list string := ["Horizontal"; "Vertical"].

Definition _get_panel_choices : list string := ["Embeddings"; "Histograms"].

Definition PLACEMENTS : list string :=
  ["SAMPLES-GRID-ACTIONS"; "SAMPLES-GRID-SECONDARY-ACTIONS";
   "SAMPLES-VIEWER-ACTIONS"].

(** [choices[0]] *)
Definition first_choice (choices : list string) : value :=
  VStr (List.hd "" choices).

Definition IMPORTS_CODE : string :=
  lines
    [""; "import fiftyone as fo"; "import fiftyone.operators as foo";
     "from fiftyone.operators import types"; ""].

Definition EXECUTION_MODE_CODE : string :=
  lines
    ["";
     "def _execution_mode(ctx, inputs):";
     "    delegate = ctx.params.get(" +:+ dq +:+ "delegate" +:+ dq +:+ ", False)";
     "";
     "    if delegate:";
     "        description = " +:+ dq +:+ "Uncheck this box to execute the operation immediately" +:+ dq;
     "    else:";
     "        description = " +:+ dq +:+ "Check this box to delegate execution of this task" +:+ dq;
     "";
     "    inputs.bool(";
     "        " +:+ dq +:+ "delegate" +:+ dq +:+ ",";
     "        default=False,";
     "        required=True,";
     "        label=" +:+ dq +:+ "Delegate execution?" +:+ dq +:+ ",";
     "        description=description,";
     "        view=types.CheckboxView(),";
     "    )";
     "";
     "    if delegate:";
     "        inputs.view(";
     "            " +:+ dq +:+ "notice" +:+ dq +:+ ",";
     "            types.Notice(";
     "                label=(";
     "                    " +:+ dq +:+ "You've chosen delegated execution. Note that you must " +:+ dq;
     "                    " +:+ dq +:+ "have a delegated operation service running in order for " +:+ dq;
     "                    " +:+ dq +:+ "this task to be processed. See " +:+ dq;
     "                    " +:+ dq +:+ "https://docs.voxel51.com/plugins/index.html#operators " +:+ dq;
     "                    " +:+ dq +:+ "for more information" +:+ dq;
     "                )";
     "            ),";
     "        )";
     ""].

Definition SERIALIZE_VIEW_CODE : string :=
  lines
    [""; "def serialize_view(view):";
     "    return json.loads(json_util.dumps(view._serialize()))"; ""].

(** [dedent(code).replace("\n\n", "\n")], the last line of every
    generator *)
Definition dedent_tight (code : string) : string :=
  replace (nl +:+ nl) nl (dedent code).

Definition replace_extra_newlines (text : string) : string :=
  squeeze_newlines 0 text.

Definition indent_code (code : string) : string :=
  let dedented_code := dedent code in
  let indented_code := "    " +:+ replace nl (nl +:+ "    ") dedented_code in
  indented_code.

Section skeleton_code.
Context `{PyRuntime}.

Definition _create_operator_config_code (p : params) : result string :=
  let operator_name := params_get p "operator_name" (VStr "my_operator") in
  let operator_label := params_get p "operator_label" (VStr "My Operator") in
  let operator_description :=
    params_get p "operator_description" (VStr "My Operator Description") in
  let config_bool_props := params_get p "config_bool_props" (VDict []) in
  dynamic ← attr_get config_bool_props "operator_dynamic" (VBool false);
  execute_as_generator ←
    attr_get config_bool_props "execute_as_generator" (VBool false);
  unlisted ← attr_get config_bool_props "unlisted" (VBool false);
  on_startup ← attr_get config_bool_props "on_startup" (VBool false);
  let config_icon_props := params_get p "config_icon_props" (VDict []) in
  config_icon ← attr_get config_icon_props "config_icon" (VBool true);
  config_light_icon ←
    attr_get config_icon_props "config_light_icon" (VBool false);
  config_dark_icon ←
    attr_get config_icon_props "config_dark_icon" (VBool false);
  let code :=
    lines
      ["";
       "    @property";
       "    def config(self):";
       "        _config = foo.OperatorConfig(";
       "            name=" +:+ dq +:+ py_str operator_name +:+ dq +:+ ",";
       "            label=" +:+ dq +:+ py_str operator_label +:+ dq +:+ ",";
       "            description=" +:+ dq +:+ py_str operator_description +:+ dq +:+ ",";
       "        "] in
  let code :=
    if truthy dynamic then
      code +:+ lines [""; "            dynamic=" +:+ py_str dynamic +:+ ","]
    else code in
  let code :=
    if truthy execute_as_generator then
      code +:+ lines [""; "            execute_as_generator="
                          +:+ py_str execute_as_generator +:+ ","]
    else code in
  let code :=
    if truthy unlisted then
      code +:+ lines [""; "            unlisted=" +:+ py_str unlisted +:+ ","]
    else code in
  let code :=
    if truthy on_startup then
      code +:+ lines [""; "            on_startup=" +:+ py_str on_startup +:+ ","]
    else code in
  let code := code +:+ lines [""; "        )"] in
  let icon_lines : list string := [] in
  let icon_lines :=
    if truthy config_icon then
      (icon_lines ++ ["_config.icon = " +:+ dq +:+ "/path/to/icon.svg" +:+ dq])%list
    else icon_lines in
  let icon_lines :=
    if truthy config_light_icon then
      (icon_lines ++ ["_config.light_icon = " +:+ dq
                      +:+ "/path/to/light_icon.svg" +:+ dq])%list
    else icon_lines in
  let icon_lines :=
    if truthy config_dark_icon then
      (icon_lines ++ ["_config.dark_icon = " +:+ dq
                      +:+ "/path/to/dark_icon.svg" +:+ dq])%list
    else icon_lines in
  let code :=
    match icon_lines with
    | [] => code
    | _ => code +:+ nl +:+ "        "
           +:+ join (nl +:+ "        ") icon_lines
    end in
  let code := code +:+ lines [""; "        return _config"; "    "] in
  Ok (dedent_tight code).

Definition _operator_skeleton_input_code (p : params) : string :=
  let has_input := params_get p "operator_input_has_input" (VBool false) in
  let delegation := params_get p "delegated_execution_choices" (VStr "False") in
  let deleg_user_choice := py_eq delegation (VStr "User Choice") in
  let code :=
    if truthy has_input && negb deleg_user_choice then
      lines
        ["";
         "        def resolve_input(self, ctx):";
         "            inputs = types.Object()";
         "";
         "            ### Add your inputs here ###";
         "";
         "            return types.Property(inputs)";
         "        "]
    else if truthy has_input && deleg_user_choice then
      lines
        ["";
         "        def resolve_input(self, ctx):";
         "            inputs = types.Object()";
         "";
         "            ### Add your inputs here ###";
         "            _execution_mode(ctx, inputs)";
         "            return types.Property(inputs)";
         "        "]
    else if deleg_user_choice then
      lines
        ["";
         "        def resolve_input(self, ctx):";
         "            inputs = types.Object()";
         "";
         "            _execution_mode(ctx, inputs)";
         "            return types.Property(inputs)";
         "        "]
    else
      lines
        ["";
         "        def resolve_input(self, ctx):";
         "            pass";
         "        "] in
  dedent_tight code.

Definition _operator_skeleton_execution_code (p : params) : result string :=
  let has_trigger := params_get p "operator_execution_has_trigger" (VBool false) in
  code ←
    (if truthy has_trigger then
       let trigger_type :=
         params_get p "operator_execution_trigger"
           (first_choice TRIGGER_CHOICES) in
       if py_eq trigger_type (VStr "Reload Samples") then
         Ok (lines
               ["";
                "            def execute(self, ctx):";
                "                ### Your logic here ###";
                "";
                "                ctx.trigger(" +:+ dq +:+ "reload_samples" +:+ dq +:+ ")";
                "                return {}";
                "            "])
       else if py_eq trigger_type (VStr "Reload Dataset") then
         Ok (lines
               ["";
                "            def execute(self, ctx):";
                "                ### Your logic here ###";
                "";
                "                ctx.trigger(" +:+ dq +:+ "reload_dataset" +:+ dq +:+ ")";
                "                return {}";
                "            "])
       else if py_eq trigger_type (VStr "Set View") then
         Ok (lines
               ["";
                "            def execute(self, ctx):";
                "                ### Your logic here ###";
                "            ";
                "                ### Create your view here ###";
                "                view = ctx.dataset.take(10)";
                "";
                "                ctx.trigger(";
                "                    " +:+ dq +:+ "set_view" +:+ dq +:+ ",";
                "                    params=dict(view=serialize_view(view)),";
                "                )";
                "                return {}";
                "            "])
       else if py_eq trigger_type (VStr "Open A Panel") then
         let panel_type :=
           params_get p "operator_execution_trigger_panel"
             (first_choice _get_panel_choices) in
         let layout_type :=
           params_get p "operator_execution_trigger_layout"
             (first_choice LAYOUT_CHOICES) in
         Ok (lines
               ["";
                "            def execute(self, ctx):";
                "                ### Your logic here ###";
                "";
                "                ctx.trigger(";
                "                    " +:+ dq +:+ "open_panel" +:+ dq +:+ ",";
                "                    params=dict(";
                "                        name=" +:+ dq +:+ py_str panel_type +:+ dq +:+ ", ";
                "                        isActive=True, ";
                "                        layout=" +:+ dq +:+ py_str layout_type +:+ dq;
                "                        ),";
                "                )";
                "                return {}";
                "            "])
       else Raise (ValueError "Invalid trigger type")
     else
       Ok (lines
             ["";
              "        def execute(self, ctx):";
              "            ### Your logic here ###";
              "        ";
              "            return {}";
              "        "]));
  Ok (dedent_tight code).

Definition _operator_skeleton_delegation_code (p : params) : result string :=
  let delegated_execution :=
    params_get p "delegated_execution_choices" (VStr "False") in
  code ←
    (if py_eq delegated_execution (VStr "False") then Ok ""
     else if py_eq delegated_execution (VStr "True") then
       Ok (lines
             ["";
              "        def resolve_delegation(self, ctx):";
              "            True";
              "        "])
     else if py_eq delegated_execution (VStr "User Choice") then
       Ok (lines
             ["";
              "        def resolve_delegation(self, ctx):";
              "            return ctx.params.get(" +:+ dq +:+ "delegate" +:+ dq +:+ ", False)";
              "        "])
     else Raise (ValueError "Invalid delegation choice"));
  Ok (dedent_tight code).

Definition _operator_skeleton_output_code (p : params) : string :=
  let has_output := params_get p "operator_output_has_output" (VBool false) in
  let code :=
    if truthy has_output then
      lines
        ["";
         "        def resolve_output(self, ctx):";
         "            outputs = types.Object()";
         "";
         "            ### Add your outputs here ###";
         "";
         "            return types.Property(outputs)";
         "        "]
    else "" in
  dedent_tight code.

Definition _operator_skeleton_placement_code (p : params) : string :=
  let has_placement :=
    params_get p "operator_placement_has_placement" (VBool false) in
  let code :=
    if truthy has_placement then
      let placement :=
        params_get p "operator_placement" (first_choice PLACEMENTS) in
      let placement_label :=
        params_get p "placement_label" (VStr "My Placement Label") in
      let placement_prompt := params_get p "placement_prompt" (VBool false) in
      let placement_has_icon := params_get p "placement_has_icon" (VBool true) in
      let placement_icon :=
        params_get p "placement_icon" (VStr "/path/to/icon.svg") in
      let placement_icon :=
        if truthy placement_has_icon
        then dq +:+ py_str placement_icon +:+ dq
        else "None" in
      lines
        ["";
         "        def resolve_placement(self, ctx):";
         "            return types.Placement(";
         "                types.Places." +:+ py_str placement +:+ ",";
         "                label = " +:+ dq +:+ py_str placement_label +:+ dq;
         "                icon = " +:+ placement_icon;
         "                prompt = " +:+ py_str placement_prompt;
         "            )";
         "        "]
    else "" in
  dedent_tight code.

Definition _create_operator_class_name (p : params) : result string :=
  let operator_name := params_get p "operator_name" (VStr "my_operator") in
  match operator_name with
  | VStr operator_name =>
      let class_name :=
        replace " " "" (str_title (replace "_" " " operator_name)) in
      Ok class_name
  | _ => Raise AttributeError
  end.

Definition _create_class_header (p : params) : result string :=
  class_name ← _create_operator_class_name p;
  Ok ("class " +:+ class_name +:+ "(foo.Operator):" +:+ nl).

Definition _create_footer (p : params) : result string :=
  class_name ← _create_operator_class_name p;
  let footer_code :=
    lines
      ["";
       "    def register(plugin):";
       "        plugin.register(" +:+ class_name +:+ ")";
       "    "] in
  Ok (dedent footer_code).

Definition _create_operator_skeleton_code (p : params) : result string :=
  code ← _create_operator_config_code p;
  let code := code +:+ nl +:+ nl in
  let code := code +:+ _operator_skeleton_input_code p in
  let code := code +:+ nl +:+ nl in
  execution_code ← _operator_skeleton_execution_code p;
  let code := code +:+ execution_code in
  let code := code +:+ nl +:+ nl in
  delegation_code ← _operator_skeleton_delegation_code p;
  let code := code +:+ delegation_code in
  let code := code +:+ nl +:+ nl in
  let code := code +:+ _operator_skeleton_output_code p in
  let code := code +:+ nl +:+ nl in
  let code := code +:+ _operator_skeleton_placement_code p in
  let code := replace_extra_newlines (indent_code code) in
  class_header ← _create_class_header p;
  let header := "" in
  let set_view :=
    py_eq (params_get p "operator_execution_trigger" VNone) (VStr "Set View") in
  let header :=
    if set_view then
      header +:+ "import json" +:+ nl +:+ "from bson import json_util" +:+ nl
    else header in
  let header := header +:+ IMPORTS_CODE in
  let header :=
    if py_eq (params_get p "delegated_execution_choices" (VStr "False"))
         (VStr "User Choice")
    then header +:+ EXECUTION_MODE_CODE
    else header in
  let header :=
    if set_view then header +:+ nl +:+ nl +:+ SERIALIZE_VIEW_CODE else header in
  let header := header +:+ nl +:+ nl in
  let header := header +:+ class_header in
  footer ← _create_footer p;
  Ok (replace_extra_newlines (header +:+ code +:+ footer)).

Definition _create_fiftyone_yml_code (p : params) : string :=
  let plugin_name :=
    params_get p "plugin_name" (VStr "@github_username/plugin_name") in
  let plugin_description :=
    params_get p "plugin_description" (VStr "My Plugin Description") in
  let operator_name := params_get p "operator_name" (VStr "my_operator") in
  let yml_code :=
    lines
      ["";
       "    name: " +:+ dq +:+ py_str plugin_name +:+ dq;
       "    version: " +:+ dq +:+ "0.0.1" +:+ dq;
       "    description: " +:+ dq +:+ py_str plugin_description +:+ dq;
       "    operators:";
       "      - " +:+ py_str operator_name;
       "    "] in
  dedent_tight yml_code.

Definition _operator_skeleton_view_code_flow (p : params)
  : M types.object unit :=
  modify (types.str_prop "operator_skeleton_view_code_header" VNone false
            None None
            (Some (types.Header "Preview Operator Skeleton" None true))) ;;
  code ← lift (_create_operator_skeleton_code p);
  modify (types.str_prop "operator_skeleton_view_code" (VStr code) false
            (Some "Python Code")
            (Some "Preview of your `__init__.py` file")
            (Some (types.CodeView "python" true))).

End skeleton_code.

(** ** build_operator_skeleton: writing the plugin *)

(** The part of the file system the operator touches: the text files, the
    directories [os.makedirs] has been asked for, and the paths opened for
    writing, in order.  Failures of the operating system (permissions, a
    full disk, a directory in the place of a file) are not represented,
    nor are the intermediate directories [os.makedirs] creates. *)
Record filesystem : Type := FileSystem {
  files : gmap string string;
  directories : gset string;
  opened : list string
}.

(** [os.makedirs(path, exist_ok=True)] *)
Definition makedirs (path : string) (fs : filesystem) : filesystem :=
  FileSystem (files fs) ({[path]} ∪ directories fs) (opened fs).

(** [open(path, "w")]: the file is created or truncated *)
Definition open_w (path : string) (fs : filesystem) : filesystem :=
  FileSystem (<[path := ""]> (files fs)) (directories fs)
    (opened fs ++ [path]).

(** [f.write(data)] on the file opened at [path] *)
Definition write (path data : string) (fs : filesystem) : filesystem :=
  FileSystem (alter (λ content, content +:+ data) path (files fs))
    (directories fs) (opened fs).

(** [posixpath.join(a, b)] on strings *)
Definition path_join (a b : string) : string :=
  if String.prefix "/" b then b
  else if String.eqb a "" || String.prefix "/" (String.rev a) then a +:+ b
  else a +:+ "/" +:+ b.

(** [os.path.join(a, b)]: both parts have to be path-like *)
Definition os_path_join (a b : value) : result string :=
  match a, b with
  | VStr a, VStr b => Ok (path_join a b)
  | _, _ => Raise TypeError
  end.

(** [os.environ["FIFTYONE_PLUGINS_DIR"]] *)
Definition _get_fo_plugins_dir (environ : gmap string string) : result string :=
  match environ !! "FIFTYONE_PLUGINS_DIR" with
  | Some dir => Ok dir
  | None => Raise (KeyError "FIFTYONE_PLUGINS_DIR")
  end.

Module BuildOperatorSkeleton.

Definition execute `{PyRuntime} (environ : gmap string string) (p : params)
  : M filesystem unit :=
  default_plugin_directory ← lift (_get_fo_plugins_dir environ);
  plugin_directory ←
    lift (attr_get (params_get p "directory" (VDict [])) "absolute_path"
            (VStr default_plugin_directory));
  let subdir := params_get p "plugin_subdirectory" (VStr "my_operator") in
  full_path ← lift (os_path_join plugin_directory subdir);
  modify (makedirs full_path) ;;
  let init_path := path_join full_path "__init__.py" in
  modify (open_w init_path) ;;
  code ← lift (_create_operator_skeleton_code p);
  modify (write init_path code) ;;
  let yml_path := path_join full_path "fiftyone.yml" in
  modify (open_w yml_path) ;;
  modify (write yml_path (_create_fiftyone_yml_code p)).

End BuildOperatorSkeleton.

(** ** Specification-side definitions for the enablement tab *)

(** The submitted objects under [enablement(i+1)], ..., [enablement(i+n)]. *)
Definition enablement_entries (p : params) (i n : nat) : list value :=
  (λ j, params_get p (enablement_prop_name j) VNone) <$> seq (S i) n.

(** Processing a list of entries one after the other, each against the
    same snapshot of the enabled names. *)
Definition run_entries (enabled_plugins : gset string) (objs : list value)
  : M host unit :=
  foldr (λ obj k, enablement_body enabled_plugins obj ;; k) (mret tt) objs.


(** What the form built by [_plugin_enablement_inputs] submits: one
    object per installed plugin, in the order of [list_plugins], holding
    the plugin's name and the position of its switch, and nothing under
    the next key. *)
Definition submitted (p : params) (h : host) (flags : list bool) : Prop :=
  length flags = length (list_plugins h) ∧
  (∀ i plugin b,
     list_plugins h !! i = Some plugin → flags !! i = Some b →
     ∃ obj, p !! enablement_prop_name (S i) = Some obj ∧
            getitem obj "name" = Ok (VStr (name plugin)) ∧
            getitem obj "enabled" = Ok (VBool b)) ∧
  p !! enablement_prop_name (S (length (list_plugins h))) = None.

(** The call the specification expects for one row of the form. *)
Definition expected_call (enabled_plugins : gset string)
    (row : string * bool) : list host_call :=
  let '(n, b) := row in
  let actual := bool_decide (n ∈ enabled_plugins) in
  if b && negb actual then [enable_plugin_call (VStr n)]
  else if negb b && actual then [disable_plugin_call (VStr n)]
  else [].

(** The row the form shows for one plugin: its name as a link, its
    description, its name again in a hidden read-only field, and the
    switch. *)
Definition enablement_row_property `{PyRuntime} (plugin : plugin_definition)
    (actual_enabled edited : bool) : types.property :=
  types.Property
    (types.Object
       [("markdown_name",
         types.Property types.String
           (VStr ("[" +:+ name plugin +:+ "](" +:+ py_str (url plugin) +:+ ")"))
           false None None (Some (types.MarkdownView true (Some 3%Q))) false);
        ("description",
         types.Property types.String (description plugin) false None None
           (Some (types.MarkdownView true (Some (13 # 2)%Q))) false);
        ("name",
         types.Property types.String (VStr (name plugin)) false None None
           (Some (types.HiddenView true (Some (1 # 2)%Q))) false);
        ("enabled",
         types.Property types.Boolean (VBool actual_enabled) false
           (Some (if edited then "(edited)" else "")) None
           (Some (types.SwitchView (Some 2%Q))) false)])
    VNone false None None None false.

(** The effect one row has on the set of enabled names. *)
Definition apply_row (enabled_plugins : gset string) (row : string * bool)
    (E : gset string) : gset string :=
  let '(n, b) := row in
  let actual := bool_decide (n ∈ enabled_plugins) in
  if b && negb actual then {[n]} ∪ E
  else if negb b && actual then E ∖ {[n]}
  else E.

(** A submitted object that carries the name [n] and the flag [b]. *)
Definition entry_of (obj : value) (row : string * bool) : Prop :=
  getitem obj "name" = Ok (VStr row.1) ∧
  getitem obj "enabled" = Ok (VBool row.2).

(** ** Sample data for the enablement tab *)

Definition sample_host : host :=
  Host [PluginDefinition "@voxel51/io" (VStr "https://github.com/voxel51/io")
          (VStr "Import and export") (VStr "1.0.0");
        PluginDefinition "@voxel51/zoo" (VStr "https://github.com/voxel51/zoo")
          VNone (VStr "0.2.1")]
       {["@voxel51/io"]} [].

(** The first switch turned off, the second turned on. *)
Definition sample_submission : params :=
  <["tab" := VStr "ENABLEMENT"]>
  (<["enablement1" :=
       VDict [("name", VStr "@voxel51/io"); ("enabled", VBool false)]]>
  (<["enablement2" :=
       VDict [("name", VStr "@voxel51/zoo"); ("enabled", VBool true)]]> ∅)).

(** An entry behind a gap: [enablement2] is missing. *)
Definition sample_gap : params :=
  <["tab" := VStr "ENABLEMENT"]>
  (<["enablement1" :=
       VDict [("name", VStr "@voxel51/io"); ("enabled", VBool false)]]>
  (<["enablement3" :=
       VDict [("name", VStr "@voxel51/zoo"); ("enabled", VBool true)]]> ∅)).

(** ** Specification-side definitions for the requirements tab *)

(** The rule as the specification words it: satisfied exactly when the
    specifier is empty or the installed version is contained in it. *)
Definition accepted_as_worded `{Packaging} (req : string * specifier_set)
    (installed_version : result string) : Prop :=
  specifier_len req.2 = 0%nat ∨
  ∃ v, installed_version = Ok v ∧ contains req.2 v = Ok true.

(** The rule the package checker implements: an installed version is
    needed as well. *)
Definition accepted_when_installed `{Packaging} (req : string * specifier_set)
    (installed_version : result string) : Prop :=
  ∃ v, installed_version = Ok v ∧
       (specifier_len req.2 = 0%nat ∨ contains req.2 v = Ok true).

(** ** Specification-side definitions for install_plugin *)

(** The property [inputs.view(name, view)] leaves once it has been marked
    invalid. *)
Definition invalid_view (v : types.view) : types.property :=
  types.Property (types.OfView v) VNone false None None (Some v) true.

(** The property [resolve_input] returns for a form with the given
    inputs. *)
Definition install_form (inputs : types.object) : types.property :=
  types.Property (types.Object inputs) VNone false None None
    (Some (types.View "Install plugin")) false.

(** A plugin dict that has no [version] key yet. *)
Definition lacks_version (plugin : dict) : Prop :=
  assoc "version" plugin = None.

#[global] Instance lacks_version_dec plugin : Decision (lacks_version plugin).
Proof. unfold lacks_version. apply _. Defined.

(** The entries of a plugins map that lack a version key. *)
Definition lacking (plugins_map : gmap string dict) : gmap string dict :=
  filter (λ kv, lacks_version kv.2) plugins_map.

(** The url a plugin is fetched from, when it is to be fetched. *)
Definition task_url (plugin : dict) : option value :=
  match assoc "version" plugin with
  | None => assoc "url" plugin
  | Some _ => None
  end.

(** ** Specification-side definitions for build_operator_skeleton *)


(** The code the form shows in the property of the preview step. *)
Definition shown_code (form : types.object) : option value :=
  match assoc "operator_skeleton_view_code" form with
  | Some (types.Property _ dflt _ _ _ _ _) => Some dflt
  | None => None
  end.

(** ** Sample data for build_operator_skeleton *)

Definition sample_environ : gmap string string :=
  {["FIFTYONE_PLUGINS_DIR" := "/home/user/fiftyone/__plugins__"]}.

Definition sample_skeleton : params :=
  <["operator_name" := VStr "count_samples"]>
  (<["plugin_subdirectory" := VStr "count_samples"]>
  (<["directory" := VDict [("absolute_path", VStr "/home/user/plugins")]]> ∅)).

(** A delegation choice that the form does not offer. *)
Definition sample_bad_delegation : params :=
  <["delegated_execution_choices" := VStr "Maybe"]> ∅.

Definition empty_fs : filesystem := FileSystem ∅ ∅ [].

(** ** Sample collaborators for install_plugin *)

(** [str.title] on ASCII letters: a letter that follows a letter is made
    lower case, any other letter upper case. *)
Fixpoint ascii_title (after_letter : bool) (s : string) : string :=
  match s with
  | EmptyString => EmptyString
  | String c s' =>
      let n := nat_of_ascii c in
      if ((97 <=? n) && (n <=? 122))%nat then
        String (if after_letter then c else ascii_of_nat (n - 32))
          (ascii_title true s')
      else if ((65 <=? n) && (n <=? 90))%nat then
        String (if after_letter then ascii_of_nat (n + 32) else c)
          (ascii_title true s')
      else String c (ascii_title false s')
  end.

(** A runtime for text without containers and without letters beyond
    ASCII. *)
Definition sample_runtime : PyRuntime :=
  {| repr_container := λ _, "<container>";
     str_chars := λ s, (λ c, String c "") <$> String.list_ascii_of_string s;
     str_title := ascii_title false;
     format_exc := λ e,
       match e with
       | External what => "Traceback (most recent call last): " +:+ what
       | _ => "Traceback (most recent call last)"
       end |}.

(** Discovery fails everywhere but at [voxel51/fiftyone-plugins]; the zoo
    cannot be reached. *)
Definition sample_offline : Utils :=
  {| find_plugins := λ gh_repo,
       if py_eq gh_repo (VStr "voxel51/fiftyone-plugins")
       then Ok [[("name", VStr "@voxel51/io");
                 ("description", VStr "Import and export");
                 ("url", VStr "https://github.com/voxel51/io")]]
       else Raise (External "404 Not Found");
     get_zoo_plugins := Raise (External "ConnectionError");
     get_plugin_info := λ url,
       if py_eq url (VStr "https://github.com/voxel51/io")
       then Ok [("name", VStr "@voxel51/io");
                ("description", VStr "Import and export");
                ("url", VStr "https://github.com/voxel51/io");
                ("version", VStr "1.1.0")]
       else Raise (External "404 Not Found") |}.

(** Workers that finish in the order of submission, and in the opposite
    order. *)
Definition in_order : Scheduler :=
  {| completion_order := λ _ tasks, tasks;
     completion_order_perm := λ _ tasks, reflexivity tasks |}.

Definition reversed : Scheduler :=
  {| completion_order := λ _ tasks, reverse tasks;
     completion_order_perm := λ _ tasks, reverse_Permutation tasks |}.

Definition sample_github_typo : params :=
  <["tab" := VStr "GITHUB"]> (<["gh_repo" := VStr "voxel51/fiftyone-plugin"]> ∅).

Definition sample_zoo_tab : params := <["tab" := VStr "VOXEL51"]> ∅.

Definition sample_no_tab : params := <["gh_repo" := VStr "voxel51/fiftyone-plugins"]> ∅.

(** A plugins map with one hydrated entry and one that is not. *)
Definition sample_plugins_map : gmap string dict :=
  <["@voxel51/io" := [("name", VStr "@voxel51/io");
                      ("description", VStr "Import and export");
                      ("url", VStr "https://github.com/voxel51/io")]]>
  (<["@voxel51/zoo" := [("name", VStr "@voxel51/zoo");
                        ("description", VStr "Zoo access");
                        ("url", VStr "https://github.com/voxel51/zoo");
                        ("version", VStr "0.2.1")]]> ∅).

(** ** Further sample data *)



(** What discovery returns at [voxel51/fiftyone-plugins]. *)
Definition sample_found : list dict :=
  [[("name", VStr "@voxel51/io");
    ("description", VStr "Import and export");
    ("url", VStr "https://github.com/voxel51/io")]].

(** A request for one installed plugin and one that is not installed. *)
Definition sample_request : value :=
  VList [VStr "@voxel51/io"; VStr "@voxel51/brain"].


(** The loop of [_get_zoo_plugin_location] over the chained listings. *)
Fixpoint zoo_search (plugin_name : value) (plugins : list dict)
  : result value :=
  match plugins with
  | [] => Ok VNone
  | plugin :: plugins' =>
      n ← dict_item plugin "name";
      if py_eq n plugin_name then dict_item plugin "url"
      else zoo_search plugin_name plugins'
  end.

(** A plugin of a listing that carries a name other than the given one. *)
Definition other_name (plugin_name : value) (plugin : dict) : Prop :=
  ∃ n, dict_item plugin "name" = Ok n ∧ py_eq n plugin_name = false.


(** A zoo that can be reached: one Voxel51 plugin, and two community
    plugins of which the first reuses the Voxel51 name. *)
Definition sample_voxel51_listing : list dict :=
  [[("name", VStr "@voxel51/io");
    ("description", VStr "Import and export");
    ("url", VStr "https://github.com/voxel51/io")]].

Definition sample_community_listing : list dict :=
  [[("name", VStr "@voxel51/io");
    ("description", VStr "A fork");
    ("url", VStr "https://github.com/someone/io")];
   [("name", VStr "@someone/tools");
    ("description", VStr "Tools");
    ("url", VStr "https://github.com/someone/tools")]].

Definition sample_zoo : Utils :=
  {| find_plugins := λ _, Raise (External "404 Not Found");
     get_zoo_plugins := Ok (sample_voxel51_listing, sample_community_listing);
     get_plugin_info := λ _, Raise (External "404 Not Found") |}.

Definition sample_zoo_choice : params :=
  <["tab" := VStr "COMMUNITY"]>
  (<["community_plugin" := VStr "@someone/gone"]> ∅).


(** ** Specification-side definitions for the generated code *)

Definition is_dict (v : value) : bool :=
  match v with VDict _ => true | _ => false end.

Definition is_str (v : value) : bool :=
  match v with VStr _ => true | _ => false end.

(** [v] equals one of the choices. *)
Definition offered (choices : list string) (v : value) : bool :=
  existsb (λ c, py_eq v (VStr c)) choices.

(** The parameter mappings on which the code generator does not raise:
    the two groups of switches are objects, a trigger that is switched on
    is one of [TRIGGER_CHOICES], the delegation choice is one of the three
    the generator knows, and the operator name is a string. *)
Definition generator_accepts (p : params) : bool :=
  is_dict (params_get p "config_bool_props" (VDict [])) &&
  is_dict (params_get p "config_icon_props" (VDict [])) &&
  (negb (truthy (params_get p "operator_execution_has_trigger" (VBool false)))
   || offered TRIGGER_CHOICES
        (params_get p "operator_execution_trigger"
           (first_choice TRIGGER_CHOICES))) &&
  offered ["False"; "True"; "User Choice"]
    (params_get p "delegated_execution_choices" (VStr "False")) &&
  is_str (params_get p "operator_name" (VStr "my_operator")).

(** No three line feeds in a row. *)
Definition triple_newline_free (s : string) : Prop :=
  ∀ a b, s ≠ a +:+ nl +:+ nl +:+ nl +:+ b.

(** Scanning for three line feeds in a row; [run] counts the line feeds
    just read. *)
Fixpoint newline_runs_short (run : nat) (s : string) : bool :=
  match s with
  | EmptyString => true
  | String c s' =>
      if Ascii.eqb c "010"
      then (run <? 2)%nat && newline_runs_short (S run) s'
      else newline_runs_short 0 s'
  end.

(** * Properties *)

(** Unfolding the plumbing of [M] in the goal or in a hypothesis. *)
Ltac run_M :=
  unfold mbind, M_bind, lift, modify, gets, mret, M_ret; simpl.
Ltac run_M_in H :=
  unfold mbind, M_bind, lift, modify, gets, mret, M_ret in H; simpl in H.

(** ** The enablement loop *)

Lemma enablement_prop_name_inj i j :
  enablement_prop_name i = enablement_prop_name j → i = j.
Proof.
  unfold enablement_prop_name. intros Heq.
  apply (inj (String.app "enablement")) in Heq.
  by apply (inj pretty) in Heq.
Qed.

Lemma enablement_keys_bounded (p : params) n :
  (∀ j, (0 < j ≤ n)%nat → is_Some (p !! enablement_prop_name j)) →
  (n ≤ size p)%nat.
Proof.
  intros Hall.
  set (ks := enablement_prop_name <$> seq 1 n).
  assert (Hnd : NoDup ks).
  { apply NoDup_fmap_2; [|apply NoDup_seq].
    intros i j. apply enablement_prop_name_inj. }
  assert (Hsub : ks ⊆+ elements (dom p)).
  { apply NoDup_submseteq; [done|]. intros k Hk.
    apply list_elem_of_fmap in Hk as (j & -> & Hj).
    apply elem_of_seq in Hj.
    apply elem_of_elements, elem_of_dom, Hall. lia. }
  apply submseteq_length in Hsub. unfold ks in Hsub.
  rewrite length_fmap, length_seq in Hsub.
  rewrite <- size_dom. exact Hsub.
Qed.

Lemma enablement_loop_out_of_fuel p en fuel i h :
  enablement_loop fuel p en i h = None →
  ∀ j, (i < j ≤ i + fuel)%nat → is_Some (p !! enablement_prop_name j).
Proof.
  revert i h. induction fuel as [|fuel IH]; intros i h Hloop j Hj; [lia|].
  simpl in Hloop. unfold params_get in Hloop.
  destruct (decide (j = S i)) as [->|Hne].
  - destruct (p !! enablement_prop_name (S i)); [by eexists|done].
  - destruct (default VNone (p !! enablement_prop_name (S i))); try done;
      (destruct (enablement_body _ _ _) as [h' [[]|e]]; [|done];
       apply (IH _ _ Hloop); lia).
Qed.

Lemma _plugin_enablement_returns p h : is_Some (_plugin_enablement p h).
Proof.
  unfold _plugin_enablement.
  destruct (enablement_loop _ _ _ _ _) as [r|] eqn:Hloop; [by eexists|].
  pose proof (enablement_loop_out_of_fuel _ _ _ _ _ Hloop) as Hall.
  pose proof (enablement_keys_bounded p (S (size p))) as Hle.
  exfalso. enough (S (size p) ≤ size p)%nat by lia.
  apply Hle. intros j Hj. apply Hall. lia.
Qed.

Lemma enablement_loop_prefix p en n : ∀ fuel i h,
  (n < fuel)%nat →
  (∀ j, (i < j ≤ i + n)%nat →
        params_get p (enablement_prop_name j) VNone ≠ VNone) →
  params_get p (enablement_prop_name (S (i + n))) VNone = VNone →
  enablement_loop fuel p en i h
  = Some (run_entries en (enablement_entries p i n) h).
Proof.
  induction n as [|n IH]; intros fuel i h Hfuel Hpresent Hgap.
  - destruct fuel as [|fuel]; [lia|]. simpl.
    rewrite Nat.add_0_r in Hgap. by rewrite Hgap.
  - destruct fuel as [|fuel]; [lia|].
    assert (Hfirst : params_get p (enablement_prop_name (S i)) VNone ≠ VNone)
      by (apply Hpresent; lia).
    unfold enablement_entries. simpl seq. rewrite fmap_cons.
    simpl. fold (enablement_entries p (S i) n).
    assert (Hloop : ∀ h', enablement_loop fuel p en (S i) h'
              = Some (run_entries en (enablement_entries p (S i) n) h')).
    { intros h'. apply IH; [lia| |].
      - intros j Hj. apply Hpresent. lia.
      - by replace (S (S i + n)) with (S (i + S n)) by lia. }
    unfold mbind at 1, M_bind.
    destruct (params_get p (enablement_prop_name (S i)) VNone) eqn:Hobj;
      [done|..];
      (destruct (enablement_body _ _ _) as [h' [[]|e]]; [apply Hloop|done]).
Qed.



Lemma _plugin_enablement_prefix (p : params) (h : host) (i : nat) :
  (0 < i)%nat →
  (∀ j, (0 < j < i)%nat →
        params_get p (enablement_prop_name j) VNone ≠ VNone) →
  params_get p (enablement_prop_name i) VNone = VNone →
  _plugin_enablement p h
  = Some (run_entries (list_to_set (list_enabled_plugins h))
            (enablement_entries p 0 (i - 1)) h).
Proof.
  intros Hi Hpresent Hgap. unfold _plugin_enablement.
  apply enablement_loop_prefix.
  - enough (i - 1 ≤ size p)%nat by lia.
    apply enablement_keys_bounded. intros j Hj.
    assert (Hne : params_get p (enablement_prop_name j) VNone ≠ VNone)
      by (apply Hpresent; lia).
    unfold params_get in Hne.
    destruct (p !! enablement_prop_name j); [by eexists|done].
  - intros j Hj. apply Hpresent. lia.
  - by replace (S (0 + (i - 1))) with i by lia.
Qed.


Lemma enablement_body_row en obj row h :
  entry_of obj row →
  enablement_body en obj h
  = (Host (installed h) (apply_row en row (enabled h))
       (calls h ++ expected_call en row), Ok tt).
Proof.
  destruct row as [n b]. intros [Hname Hflag]. simpl in *.
  unfold enablement_body, mbind, M_bind, lift, modify, mret, M_ret.
  rewrite Hname, Hflag. simpl.
  destruct h as [ins E cs].
  destruct b, (bool_decide (n ∈ en)); simpl; by rewrite ?app_nil_r.
Qed.

Lemma run_entries_rows en objs rows :
  Forall2 entry_of objs rows →
  ∀ h, run_entries en objs h
       = (Host (installed h) (foldl (flip (apply_row en)) (enabled h) rows)
            (calls h ++ mjoin (expected_call en <$> rows)), Ok tt).
Proof.
  induction 1 as [|obj row objs rows Hrow _ IH]; intros h.
  - simpl. rewrite app_nil_r. by destruct h.
  - simpl. unfold mbind at 1, M_bind.
    rewrite (enablement_body_row en obj row h Hrow), IH. simpl.
    by rewrite <- app_assoc.
Qed.

Lemma apply_rows_frame en rows : ∀ E s,
  s ∉ rows.*1 →
  s ∈ foldl (flip (apply_row en)) E rows ↔ s ∈ E.
Proof.
  induction rows as [|[n b] rows IH]; intros E s Hs; [done|].
  simpl in *. apply not_elem_of_cons in Hs as [Hne Hs].
  rewrite IH by done. unfold flip, apply_row.
  destruct (b && _); [set_solver|]. destruct (negb b && _); set_solver.
Qed.

Lemma apply_rows_status en rows : ∀ E,
  NoDup rows.*1 →
  (∀ s, s ∈ rows.*1 → s ∈ E ↔ s ∈ en) →
  ∀ n b, (n, b) ∈ rows →
         n ∈ foldl (flip (apply_row en)) E rows ↔ b = true.
Proof.
  induction rows as [|[m c] rows IH]; intros E Hnd Hsnap n b Hin.
  { by apply elem_of_nil in Hin. }
  simpl in *. apply NoDup_cons in Hnd as [Hm Hnd].
  apply elem_of_cons in Hin as [[= -> ->]|Hin].
  - rewrite apply_rows_frame by done.
    pose proof (Hsnap m ltac:(set_solver)) as HmE.
    unfold flip, apply_row. case_bool_decide as Hen; destruct c; simpl;
      set_solver.
  - apply IH; [done| |done]. intros s Hs.
    assert (s ≠ m) by (intros ->; done).
    rewrite <- (Hsnap s) by set_solver.
    unfold flip, apply_row.
    destruct (c && _); [set_solver|]. destruct (negb c && _); set_solver.
Qed.

Lemma submitted_entries (p : params) (h : host) (flags : list bool) :
  submitted p h flags →
  Forall2 entry_of (enablement_entries p 0 (length (list_plugins h)))
    (zip (name <$> list_plugins h) flags).
Proof.
  intros (Hlen & Hrows & _).
  apply Forall2_same_length_lookup_2.
  { unfold enablement_entries.
    rewrite length_fmap, length_seq, length_zip, length_fmap. lia. }
  intros i obj [n b] Hobj Hrow.
  apply lookup_zip_Some in Hrow as [Hn Hb]. simpl in *.
  rewrite list_lookup_fmap in Hn.
  destruct (list_plugins h !! i) as [plugin|] eqn:Hpl; [|done].
  simpl in Hn. injection Hn as <-.
  destruct (Hrows i plugin b Hpl Hb) as (obj' & Hp & Hname & Hflag).
  unfold enablement_entries in Hobj. rewrite list_lookup_fmap in Hobj.
  destruct (seq 1 (length (list_plugins h)) !! i) as [j|] eqn:Hj; [|done].
  apply lookup_seq in Hj as [-> _]. simpl in Hobj.
  unfold params_get in Hobj. rewrite Hp in Hobj. simpl in Hobj.
  injection Hobj as <-. by split.
Qed.

(** C1: on the ENABLEMENT tab, when the parameters are what the form built
    by resolve_input submits (one entry per listed plugin, carrying its
    name and the position of its switch), execute returns normally,
    [enable_plugin] is called exactly for the rows switched on whose plugin
    is not enabled, [disable_plugin] exactly for the rows switched off
    whose plugin is enabled, no call is made for the other rows, and
    afterwards every listed plugin is enabled exactly when its submitted
    flag is true. *)
Theorem manage_plugins_applies_submitted_flags
    (p : params) (h : host) (flags : list bool) :
  p !! "tab" = Some (VStr "ENABLEMENT") →
  NoDup (name <$> list_plugins h) →
  submitted p h flags →
  let en : gset string := list_to_set (list_enabled_plugins h) in
  let rows := zip (name <$> list_plugins h) flags in
  ∃ h', ManagePlugins.execute p h = Some (h', Ok tt) ∧
        calls h' = (calls h ++ mjoin (expected_call en <$> rows))%list ∧
        ∀ n b, (n, b) ∈ rows → n ∈ list_enabled_plugins h' ↔ b = true.
Proof.
  intros Htab Hnd Hsub en rows.
  pose proof (submitted_entries p h flags Hsub) as Hall.
  destruct Hsub as (Hlen & Hrows & Hgap).
  assert (Hfst : rows.*1 = name <$> list_plugins h).
  { apply fst_zip. rewrite length_fmap. lia. }
  eexists. split_and!.
  - unfold ManagePlugins.execute, params_get. rewrite Htab. simpl.
    rewrite (_plugin_enablement_prefix p h (S (length (list_plugins h)))).
    + simpl. rewrite Nat.sub_0_r.
      by rewrite (run_entries_rows _ _ _ Hall).
    + lia.
    + intros j Hj.
      destruct (lookup_lt_is_Some_2 (list_plugins h) (j - 1)) as [pl Hpl];
        [lia|].
      destruct (lookup_lt_is_Some_2 flags (j - 1)) as [b Hb]; [lia|].
      destruct (Hrows _ _ _ Hpl Hb) as (obj & Hp & Hname & _).
      replace (S (j - 1)) with j in Hp by lia.
      unfold params_get. rewrite Hp. simpl. by intros ->.
    + unfold params_get. by rewrite Hgap.
  - done.
  - intros n b Hin. simpl.
    assert (Hn : n ∈ name <$> list_plugins h).
    { rewrite <- Hfst. apply list_elem_of_fmap. by exists (n, b). }
    unfold list_enabled_plugins at 1. simpl.
    rewrite list_elem_of_filter.
    assert (Hst : n ∈ foldl (flip (apply_row en)) (enabled h) rows
                  ↔ b = true).
    { apply apply_rows_status; [by rewrite Hfst| |done].
      intros s Hs. rewrite Hfst in Hs. unfold en, list_enabled_plugins.
      rewrite elem_of_list_to_set, list_elem_of_filter. tauto. }
    subst en rows. unfold list_plugins in *. tauto.
Qed.

Example sample_submission_run :
  ManagePlugins.execute sample_submission sample_host
  = Some (Host (installed sample_host) {["@voxel51/zoo"]}
            [disable_plugin_call (VStr "@voxel51/io");
             enable_plugin_call (VStr "@voxel51/zoo")], Ok tt).
Proof. vm_compute. reflexivity. Qed.

Lemma manage_plugins_applies_submitted_flags_witness :
  ∃ h', ManagePlugins.execute sample_submission sample_host = Some (h', Ok tt) ∧
        calls h'
        = (calls sample_host ++
           mjoin (expected_call (list_to_set (list_enabled_plugins sample_host))
                    <$> zip (name <$> list_plugins sample_host)
                            [false; true]))%list ∧
        ∀ n b, (n, b) ∈ zip (name <$> list_plugins sample_host) [false; true] →
               n ∈ list_enabled_plugins h' ↔ b = true.
Proof.
  apply (manage_plugins_applies_submitted_flags sample_submission sample_host
           [false; true]).
  - vm_compute. reflexivity.
  - apply (bool_decide_unpack _). vm_compute. exact I.
  - split_and!.
    + reflexivity.
    + intros [|[|i]] plugin b Hpl Hb; simpl in Hpl, Hb;
        [injection Hpl as <-; injection Hb as <-..|discriminate].
      * eexists. split_and!; vm_compute; reflexivity.
      * eexists. split_and!; vm_compute; reflexivity.
    + vm_compute. reflexivity.
Defined.


Example sample_gap_run :
  _plugin_enablement sample_gap sample_host
  = Some (Host (installed sample_host) ∅
            [disable_plugin_call (VStr "@voxel51/io")], Ok tt).
Proof. vm_compute. reflexivity. Qed.

(** ** The enablement form *)

Lemma assoc_assoc_set {A} (k : string) (v : A) (d : list (string * A)) :
  assoc k (assoc_set k v d) = Some v.
Proof.
  induction d as [|[k' v'] d IH]; simpl.
  - by rewrite String.eqb_refl.
  - destruct (String.eqb k' k) eqn:Hk; simpl; by rewrite Hk.
Qed.

Lemma assoc_assoc_set_ne {A} (k k' : string) (v : A) (d : list (string * A)) :
  k ≠ k' → assoc k (assoc_set k' v d) = assoc k d.
Proof.
  intros Hne. induction d as [|[k'' v'] d IH]; simpl.
  - destruct (String.eqb_spec k' k); congruence.
  - destruct (String.eqb_spec k'' k') as [->|Hk]; simpl.
    + destruct (String.eqb_spec k' k); congruence.
    + by rewrite IH.
Qed.

Lemma pretty_N_go_ne_underscore (x : N) (s s' : string) :
  s ≠ "_" +:+ s' → pretty_N_go x s ≠ "_" +:+ s'.
Proof.
  revert s. induction (N.lt_wf_0 x) as [x _ IH]; intros s Hs.
  assert (x = 0 ∨ 0 < x)%N as [->|Hpos] by lia.
  - by rewrite pretty_N_go_0.
  - rewrite pretty_N_go_step by done. apply IH.
    { by apply N.div_lt. }
    unfold pretty_N_char. by repeat case_match.
Qed.

Lemma enablement_prop_name_ne (i : nat) (suffix : string) :
  enablement_prop_name i ≠ "enablement_" +:+ suffix.
Proof.
  unfold enablement_prop_name. intros Heq.
  change ("enablement_" +:+ suffix) with ("enablement" +:+ "_" +:+ suffix)
    in Heq.
  apply (inj (String.app "enablement")) in Heq. revert Heq.
  unfold pretty, pretty_nat, pretty, pretty_N. case_decide; [done|].
  by apply pretty_N_go_ne_underscore.
Qed.

Lemma enablement_rows_form `{PyRuntime} (p : params) (en : gset string)
    (plugins : list plugin_definition) :
  ∀ i inputs n inputs' n',
    enablement_rows p en i plugins (inputs, n) = ((inputs', n'), Ok tt) →
    (∀ j plugin, plugins !! j = Some plugin →
       ∃ edited,
         assoc (enablement_prop_name (i + j)) inputs'
         = Some (enablement_row_property plugin
                   (bool_decide (name plugin ∈ en)) edited)) ∧
    (∀ k, (∀ j, (j < length plugins)%nat → k ≠ enablement_prop_name (i + j)) →
          assoc k inputs' = assoc k inputs).
Proof.
  induction plugins as [|plugin plugins IH]; intros i inputs n inputs' n' Hrun.
  { simpl in Hrun. injection Hrun as <- <-. split; [|done].
    intros j plugin Hj. by rewrite lookup_nil in Hj. }
  simpl in Hrun. unfold mbind at 1, M_bind in Hrun.
  unfold enablement_row, mbind, M_bind, lift, modify in Hrun.
  destruct (attr_get _ _ _) as [enabled|e]; [|done]. simpl in Hrun.
  apply IH in Hrun as [Hrows Hframe]. split.
  - intros [|j] pl Hj; simpl in Hj.
    + injection Hj as <-. rewrite Nat.add_0_r.
      eexists. rewrite Hframe.
      * unfold types.define_property. by rewrite assoc_assoc_set.
      * intros j _ Heq. apply enablement_prop_name_inj in Heq. lia.
    + destruct (Hrows j pl Hj) as [edited Hrow]. exists edited.
      by replace (i + S j)%nat with (S i + j)%nat by lia.
  - intros k Hk. rewrite Hframe.
    + unfold types.define_property. apply assoc_assoc_set_ne.
      specialize (Hk 0%nat). rewrite Nat.add_0_r in Hk. apply Hk. simpl. lia.
    + intros j Hj. replace (S i + j)%nat with (i + S j)%nat by lia.
      apply Hk. simpl. lia.
Qed.

(** X5: The form of the enablement tab has one row per listed plugin, under
    the keys [enablement1], [enablement2], ... in the order of
    [list_plugins], each holding the plugin's name in its hidden field,
    and it adds no row under any other such key: this is what [submitted]
    describes. *)
Lemma enablement_form_rows `{PyRuntime} (p : params) (h : host)
    (inputs form : types.object) :
  _plugin_enablement_inputs p h inputs = (form, Ok tt) →
  let en : gset string := list_to_set (list_enabled_plugins h) in
  (∀ i plugin, list_plugins h !! i = Some plugin →
     ∃ edited,
       assoc (enablement_prop_name (S i)) form
       = Some (enablement_row_property plugin
                 (bool_decide (name plugin ∈ en)) edited)) ∧
  (∀ j, (j = 0 ∨ length (list_plugins h) < j)%nat →
        assoc (enablement_prop_name j) form
        = assoc (enablement_prop_name j) inputs).
Proof.
  intros Hform en. unfold _plugin_enablement_inputs in Hform.
  fold en in Hform.
  destruct (enablement_rows _ _ _ _ _) as [[inputs' n] [[]|e]] eqn:Hrows;
    [|done].
  apply enablement_rows_form in Hrows as [Hrows Hframe].
  assert (Hkeep : ∀ j, assoc (enablement_prop_name j) form
                       = assoc (enablement_prop_name j) inputs').
  { intros j.
    assert (Hstatus : enablement_prop_name j ≠ "enablement_status")
      by apply (enablement_prop_name_ne j "status").
    destruct (n =? 0)%nat; injection Hform as <-.
    - unfold types.set_invalid, types.view_prop, types.define_property.
      rewrite assoc_assoc_set. by rewrite !assoc_assoc_set_ne.
    - unfold types.view_prop, types.define_property.
      by rewrite assoc_assoc_set_ne. }
  split.
  - intros i plugin Hi. rewrite Hkeep. apply (Hrows i plugin Hi).
  - intros j Hj. rewrite Hkeep, Hframe.
    + unfold types.define_property. rewrite assoc_assoc_set_ne; [done|].
      apply (enablement_prop_name_ne j "header").
    + intros j' Hj' Heq. apply enablement_prop_name_inj in Heq.
      unfold list_plugins in *. lia.
Qed.

(** ** Requirement checking *)

Example check_numpy :
  @_check_package_requirement (pep440.packaging sample_installed "0.23.0")
    "numpy>=1.0,<2.0"
  = ("numpy>=1.0,<2.0", Some "0.9", false).
Proof. vm_compute. reflexivity. Qed.

Example check_numpy_ok :
  @_check_package_requirement (pep440.packaging sample_installed "0.23.0")
    "numpy >= 0.5, != 0.9.1"
  = ("numpy >= 0.5, != 0.9.1", Some "0.9", true).
Proof. vm_compute. reflexivity. Qed.

Example check_fiftyone :
  @_check_fiftyone_requirement (pep440.packaging sample_installed "0.23.0")
    "fiftyone>=0.22"
  = ("fiftyone>=0.22", "0.23.0", true).
Proof. vm_compute. reflexivity. Qed.

Lemma specifier_accepts_true `{Packaging} req version :
  specifier_accepts req version = Ok true ↔
  specifier_len req.2 = 0%nat ∨ contains req.2 version = Ok true.
Proof.
  unfold specifier_accepts.
  destruct (Nat.eqb_spec (specifier_len req.2) 0) as [Hz|Hnz];
    naive_solver.
Qed.

Lemma result_true_iff (r : result bool) :
  match r with Ok b => b | Raise _ => false end = true ↔ r = Ok true.
Proof. destruct r as [[]|]; naive_solver. Qed.

(** C2, as stated, fails: a requirement without a specifier on a
    distribution that is not installed is reported unsatisfied although
    its specifier is empty. *)
Lemma requirement_report_counterexample :
  let lib := pep440.packaging sample_installed "0.23.0" in
  Requirement "scipy" = Ok ("scipy", []) ∧
  _check_package_requirement "scipy" = ("scipy", None, false) ∧
  ¬ ((_check_package_requirement "scipy").2 = true ↔
     accepted_as_worded ("scipy", []) (metadata_version "scipy")).
Proof.
  split_and!; [by vm_compute..|].
  intros [_ Hworded]. enough (false = true) by done.
  apply Hworded. left. reflexivity.
Qed.

(** C2, amended: the fiftyone requirement is reported satisfied exactly
    when its specifier is empty or contains the running version; a package
    requirement is reported satisfied exactly when the distribution has an
    installed version and the specifier is empty or contains it, so a
    distribution without installed version is always reported unsatisfied;
    and with the specifier [>=1.0,<2.0] and the installed version [0.9]
    the report is unsatisfied. *)
Theorem requirement_report :
  (∀ (lib : Packaging) (req_str : string) (req : string * specifier_set),
     Requirement req_str = Ok req →
     _check_fiftyone_requirement req_str
     = (req_str, VERSION, (_check_fiftyone_requirement req_str).2) ∧
     ((_check_fiftyone_requirement req_str).2 = true ↔
      accepted_as_worded req (Ok VERSION)) ∧
     _check_package_requirement req_str
     = (req_str,
        match metadata_version req.1 with Ok v => Some v | Raise _ => None end,
        (_check_package_requirement req_str).2) ∧
     ((_check_package_requirement req_str).2 = true ↔
      accepted_when_installed req (metadata_version req.1))) ∧
  (∀ (lib : Packaging) (req_str : string),
     (_check_package_requirement req_str).1.2 = None →
     (_check_package_requirement req_str).2 = false) ∧
  (∀ (installed : string → result string) (fiftyone_version : string)
     (req_str dist : string),
     let lib := pep440.packaging installed fiftyone_version in
     Requirement req_str
     = Ok (dist, [(pep440.OpGe, [1; 0]); (pep440.OpLt, [2; 0])]%nat) →
     installed dist = Ok "0.9" →
     _check_package_requirement req_str = (req_str, Some "0.9", false)).
Proof.
  split_and!.
  - intros lib req_str req Hparse.
    unfold _check_fiftyone_requirement, _check_package_requirement.
    rewrite Hparse. simpl. split_and!.
    + done.
    + rewrite result_true_iff, specifier_accepts_true.
      unfold accepted_as_worded. naive_solver.
    + by destruct (metadata_version req.1).
    + unfold accepted_when_installed.
      destruct (metadata_version req.1) as [v|e]; simpl.
      * rewrite result_true_iff, specifier_accepts_true. naive_solver.
      * naive_solver.
  - intros lib req_str. unfold _check_package_requirement. simpl.
    destruct (Requirement req_str) as [req|e]; simpl; [|done].
    by destruct (metadata_version req.1).
  - intros installed fiftyone_version req_str dist lib Hparse Hinst.
    unfold _check_package_requirement. rewrite Hparse. simpl.
    by rewrite Hinst.
Qed.

Lemma requirement_report_witness :
  @_check_package_requirement (pep440.packaging sample_installed "0.23.0")
    "numpy>=1.0,<2.0"
  = ("numpy>=1.0,<2.0", Some "0.9", false).
Proof.
  refine (proj2 (proj2 requirement_report) sample_installed "0.23.0"
            "numpy>=1.0,<2.0" "numpy" _ _).
  - vm_compute. reflexivity.
  - vm_compute. reflexivity.
Defined.

(** C5: when the requirement string does not parse, both checkers still
    return, and report the requirement unsatisfied: the fiftyone checker
    returns the string, the running version and false, the package checker
    the string, no version and false. *)
Theorem unparsable_requirement_unsatisfied
    (lib : Packaging) (req_str : string) (e : exn) :
  Requirement req_str = Raise e →
  _check_fiftyone_requirement req_str = (req_str, VERSION, false) ∧
  _check_package_requirement req_str = (req_str, None, false).
Proof.
  intros Hparse.
  unfold _check_fiftyone_requirement, _check_package_requirement.
  by rewrite Hparse.
Qed.

Lemma unparsable_requirement_unsatisfied_witness :
  let lib := pep440.packaging sample_installed "0.23.0" in
  _check_fiftyone_requirement ">=1.0" = (">=1.0", "0.23.0", false) ∧
  _check_package_requirement ">=1.0" = (">=1.0", None, false).
Proof.
  apply (unparsable_requirement_unsatisfied
           (pep440.packaging sample_installed "0.23.0") ">=1.0"
           (External "InvalidRequirement")).
  vm_compute. reflexivity.
Defined.

(** ** install_plugin *)

Lemma py_eq_str_true (v : value) (lit : string) :
  py_eq v (VStr lit) = true ↔ v = VStr lit.
Proof.
  destruct v; simpl; try (split; [discriminate|congruence]).
  rewrite String.eqb_eq. split; congruence.
Qed.

Lemma py_eq_str_false (v : value) (lit : string) :
  py_eq v (VStr lit) = false ↔ v ≠ VStr lit.
Proof.
  rewrite <- py_eq_str_true. destruct (py_eq v (VStr lit)); naive_solver.
Qed.

(** C9: execute relies on the tab being GITHUB, VOXEL51 or COMMUNITY.
    With one of these, the download call is handed the location bound in
    the branch (the [gh_repo] parameter, or the zoo location of the chosen
    plugin) and no unbound-local error can arise; with any other tab, or
    none, execute fails with the unbound-local error for [gh_repo] and
    the host has received no call. *)
Theorem install_execute_needs_known_tab `{Utils} (p : params) (h : host) :
  let tab := params_get p "tab" VNone in
  (tab = VStr "GITHUB" →
   InstallPlugin.execute p h
   = match p !! "gh_repo" with
     | Some gh_repo =>
         (download_plugin gh_repo (params_get p "plugin_names" VNone) true h,
          Ok tt)
     | None => (h, Raise (KeyError "gh_repo"))
     end) ∧
  (∀ param, (tab = VStr "VOXEL51" ∧ param = "voxel51_plugin") ∨
            (tab = VStr "COMMUNITY" ∧ param = "community_plugin") →
   InstallPlugin.execute p h
   = match p !! param with
     | Some plugin_name =>
         match _get_zoo_plugin_location plugin_name with
         | Ok gh_repo =>
             (download_plugin gh_repo (VList [plugin_name]) true h, Ok tt)
         | Raise e => (h, Raise e)
         end
     | None => (h, Raise (KeyError param))
     end) ∧
  (tab ∉ [VStr "GITHUB"; VStr "VOXEL51"; VStr "COMMUNITY"] →
   InstallPlugin.execute p h = (h, Raise (UnboundLocalError "gh_repo"))).
Proof.
  intros tab. unfold InstallPlugin.execute, _install_plugin. fold tab.
  unfold mbind, M_bind, lift, modify, local, params_item.
  split_and!.
  - intros ->. simpl. by destruct (p !! "gh_repo").
  - intros param [[-> ->]|[-> ->]]; simpl.
    + destruct (p !! "voxel51_plugin") as [plugin_name|]; [|done]. simpl.
      by destruct (_get_zoo_plugin_location plugin_name).
    + destruct (p !! "community_plugin") as [plugin_name|]; [|done]. simpl.
      by destruct (_get_zoo_plugin_location plugin_name).
  - intros Htab.
    assert (py_eq tab (VStr "GITHUB") = false) as ->
      by (apply py_eq_str_false; set_solver).
    assert (py_eq tab (VStr "VOXEL51") = false) as ->
      by (apply py_eq_str_false; set_solver).
    assert (py_eq tab (VStr "COMMUNITY") = false) as ->
      by (apply py_eq_str_false; set_solver).
    done.
Qed.

Lemma install_execute_needs_known_tab_witness :
  @InstallPlugin.execute sample_offline sample_no_tab sample_host
  = (sample_host, Raise (UnboundLocalError "gh_repo")).
Proof.
  refine (proj2 (proj2 (@install_execute_needs_known_tab sample_offline
                          sample_no_tab sample_host)) _).
  vm_compute. intros Hin.
  repeat (apply elem_of_cons in Hin as [Hin|Hin]; [discriminate|]).
  by apply elem_of_nil in Hin.
Defined.

(** C6: in the form builder of install_plugin, an exception raised by
    plugin discovery (GitHub tab) or by the zoo listing (the other tabs)
    does not escape resolve_input: the form returned ends with an [error]
    property whose view is an Error carrying the formatted traceback,
    marked invalid, and nothing is added after it. *)
Theorem install_form_surfaces_failures `{PyRuntime} `{Utils} `{Scheduler}
    (p : params) (h : host) (e : exn) :
  let tab := params_get p "tab" (VStr "GITHUB") in
  let gh_repo := params_get p "gh_repo" VNone in
  (tab = VStr "GITHUB" → truthy gh_repo = true →
   find_plugins gh_repo = Raise e →
   ∃ tab_prop instructions_prop gh_repo_prop,
     InstallPlugin.resolve_input p h
     = Ok (install_form
             [("tab", tab_prop);
              ("gh_repo_instructions", instructions_prop);
              ("gh_repo", gh_repo_prop);
              ("error",
               invalid_view
                 (types.Error ("Failed to find plugins at " +:+ py_str gh_repo)
                    (format_exc e)))])) ∧
  (tab ≠ VStr "GITHUB" → get_zoo_plugins = Raise e →
   ∃ tab_prop,
     InstallPlugin.resolve_input p h
     = Ok (install_form
             [("tab", tab_prop);
              ("error",
               invalid_view
                 (types.Error "Failed to retrieve zoo plugins"
                    (format_exc e)))])).
Proof.
  intros tab gh_repo.
  unfold InstallPlugin.resolve_input, _install_plugin_inputs.
  fold tab. split.
  - intros Htab Hrepo Hfind. do 3 eexists.
    rewrite Htab. simpl.
    unfold install_github_tab. fold gh_repo. rewrite Hrepo, Hfind.
    reflexivity.
  - intros Htab Hzoo. eexists.
    apply py_eq_str_false in Htab. rewrite Htab.
    unfold install_zoo_tab. rewrite Hzoo.
    reflexivity.
Qed.

Lemma install_form_surfaces_failures_witness :
  ∃ tab_prop instructions_prop gh_repo_prop,
    @InstallPlugin.resolve_input sample_runtime sample_offline in_order
      sample_github_typo sample_host
    = Ok (install_form
            [("tab", tab_prop);
             ("gh_repo_instructions", instructions_prop);
             ("gh_repo", gh_repo_prop);
             ("error",
              invalid_view
                (types.Error
                   "Failed to find plugins at voxel51/fiftyone-plugin"
                   "Traceback (most recent call last): 404 Not Found"))]).
Proof.
  refine (proj1 (@install_form_surfaces_failures sample_runtime sample_offline
                   in_order sample_github_typo sample_host
                   (External "404 Not Found")) _ _ _).
  - vm_compute. reflexivity.
  - vm_compute. reflexivity.
  - vm_compute. reflexivity.
Defined.

Example zoo_failure_form :
  ∃ tab_prop,
    @InstallPlugin.resolve_input sample_runtime sample_offline in_order
      sample_zoo_tab sample_host
    = Ok (install_form
            [("tab", tab_prop);
             ("error",
              invalid_view
                (types.Error "Failed to retrieve zoo plugins"
                   "Traceback (most recent call last): ConnectionError"))]).
Proof. eexists. vm_compute. reflexivity. Qed.

(** ** Hydration of the plugins map *)

Lemma foldl_add_task_raise e l : foldl add_task (Raise e) l = Raise e.
Proof. induction l as [|[name plugin] l IH]; [done|]. simpl. exact IH. Qed.

Lemma foldl_add_task l :
  NoDup l.*1 → ∀ acc,
  match foldl add_task (Ok acc) l with
  | Ok tasks =>
      tasks = omap task_url (list_to_map l) ∪ acc ∧
      Forall (λ kv, lacks_version kv.2 → is_Some (assoc "url" kv.2)) l
  | Raise _ =>
      Exists (λ kv, lacks_version kv.2 ∧ assoc "url" kv.2 = None) l
  end.
Proof.
  induction l as [|[name plugin] l IH]; intros Hnd acc.
  { simpl. rewrite omap_empty. by rewrite (left_id_L ∅ (∪)). }
  simpl in Hnd. apply NoDup_cons in Hnd as [Hname Hnd].
  assert (Hfresh : (list_to_map l : gmap string dict) !! name = None)
    by by apply not_elem_of_list_to_map_1.
  assert (Hstep : add_task (Ok acc) (name, plugin)
                  = match assoc "version" plugin with
                    | None => url ← dict_item plugin "url";
                              Ok (<[name := url]> acc)
                    | Some _ => Ok acc
                    end) by done.
  change (foldl add_task (Ok acc) ((name, plugin) :: l))
    with (foldl add_task (add_task (Ok acc) (name, plugin)) l).
  rewrite Hstep, list_to_map_cons. clear Hstep.
  destruct (assoc "version" plugin) as [ver|] eqn:Hver.
  - specialize (IH Hnd acc). destruct (foldl add_task (Ok acc) l) as [tasks|e].
    + destruct IH as [-> Hall]. split.
      * rewrite omap_insert_None by (unfold task_url; by rewrite Hver).
        rewrite delete_id; [done|]. by rewrite lookup_omap, Hfresh.
      * constructor; [|done]. unfold lacks_version. simpl. by rewrite Hver.
    + by apply Exists_cons_tl.
  - unfold dict_item. destruct (assoc "url" plugin) as [url|] eqn:Hurl; simpl.
    + specialize (IH Hnd (<[name := url]> acc)).
      destruct (foldl add_task (Ok (<[name := url]> acc)) l) as [tasks|e].
      * destruct IH as [-> Hall]. split.
        -- rewrite (omap_insert_Some _ _ _ _ url)
             by (unfold task_url; by rewrite Hver).
           rewrite <- insert_union_l. symmetry. apply insert_union_r.
           by rewrite lookup_omap, Hfresh.
        -- constructor; [|done]. simpl. by rewrite Hurl.
      * by apply Exists_cons_tl.
    + rewrite foldl_add_task_raise. by apply Exists_cons_hd.
Qed.

Lemma hydrate_tasks_spec `{Utils} (plugins_map : gmap string dict) :
  match hydrate_tasks plugins_map with
  | Ok tasks =>
      tasks = omap task_url plugins_map ∧
      dom tasks = dom (lacking plugins_map)
  | Raise _ => lacking plugins_map ≠ ∅
  end.
Proof.
  unfold hydrate_tasks.
  pose proof (foldl_add_task (map_to_list plugins_map)
                (NoDup_fst_map_to_list _) ∅) as Hspec.
  destruct (foldl add_task (Ok ∅) (map_to_list plugins_map)) as [tasks|e].
  - destruct Hspec as [-> Hall].
    rewrite list_to_map_to_list, (right_id_L ∅ (∪)). split; [done|].
    apply set_eq. intros name. rewrite !elem_of_dom. unfold is_Some.
    setoid_rewrite lookup_omap_Some. unfold lacking.
    setoid_rewrite map_lookup_filter_Some. simpl.
    rewrite Forall_forall in Hall. split.
    + intros (url & plugin & Hurl & Hpl). exists plugin. split; [done|].
      unfold task_url, lacks_version in *.
      by destruct (assoc "version" plugin).
    + intros (plugin & Hpl & Hlacks).
      destruct (Hall (name, plugin)) as [url Hurl]; [|done|].
      { by apply elem_of_map_to_list. }
      exists url, plugin. split; [|done].
      unfold task_url. simpl in *. by rewrite Hlacks.
  - apply Exists_exists in Hspec as ([name plugin] & Hin & Hlacks & _).
    apply elem_of_map_to_list in Hin. intros Hempty.
    assert (Hlook : lacking plugins_map !! name = Some plugin)
      by by apply map_lookup_filter_Some.
    by rewrite Hempty in Hlook.
Qed.


Lemma hydrate_from_pool_ok `{Utils} (completed : list (string * value)) :
  NoDup completed.*1 →
  ∀ s s', hydrate_from_pool completed s = (s', Ok tt) →
  ∀ name,
    match (list_to_map completed : gmap string value) !! name with
    | Some url => ∃ info, get_plugin_info url = Ok info ∧
                          hydrated s' !! name = Some info
    | None => hydrated s' !! name = hydrated s !! name
    end.
Proof.
  induction completed as [|[nm url] completed IH]; intros Hnd s s' Hrun name.
  { simpl in *. by injection Hrun as <-. }
  simpl in Hnd. apply NoDup_cons in Hnd as [Hnm Hnd].
  simpl in Hrun. run_M_in Hrun.
  destruct (get_plugin_info url) as [info|e] eqn:Hfetch; simpl in Hrun;
    [|done].
  specialize (IH Hnd _ _ Hrun name).
  rewrite list_to_map_cons.
  destruct (decide (nm = name)) as [->|Hne].
  - rewrite lookup_insert_eq.
    rewrite (not_elem_of_list_to_map_1 completed name Hnm) in IH.
    exists info. split; [done|]. rewrite IH. simpl. apply lookup_insert_eq.
  - rewrite lookup_insert_ne by done.
    destruct (list_to_map completed !! name); [done|].
    rewrite IH. simpl. by apply lookup_insert_ne.
Qed.



Example hydrate_single_task :
  @_hydrate_plugin_info sample_offline reversed
    (Hydration sample_plugins_map [])
  = (Hydration
       (<["@voxel51/io" := [("name", VStr "@voxel51/io");
                            ("description", VStr "Import and export");
                            ("url", VStr "https://github.com/voxel51/io");
                            ("version", VStr "1.1.0")]]> sample_plugins_map)
       [direct_fetch (VStr "https://github.com/voxel51/io");
        pool_created 1;
        pool_imap_unordered
          [("@voxel51/io", VStr "https://github.com/voxel51/io")]],
     Ok tt).
Proof. vm_compute. reflexivity. Qed.

(** C8: when [_hydrate_plugin_info] returns, the plugins map has the same
    keys as before; an entry that carried a version key is unchanged; an
    entry that lacked one now holds, under its own name, the metadata
    fetched from its url.  This holds for every order in which the pool
    hands back its results. *)
Theorem hydrate_replaces_lacking_entries `{Utils} `{Scheduler}
    (s s' : hydration) :
  _hydrate_plugin_info s = (s', Ok tt) →
  dom (hydrated s') = dom (hydrated s) ∧
  ∀ name plugin,
    hydrated s !! name = Some plugin →
    (¬ lacks_version plugin → hydrated s' !! name = Some plugin) ∧
    (lacks_version plugin →
     ∃ url info, assoc "url" plugin = Some url ∧
                 get_plugin_info url = Ok info ∧
                 hydrated s' !! name = Some info).
Proof.
  intros Hrun.
  enough (Hpoint : ∀ name,
            match hydrated s !! name ≫= task_url with
            | Some url => ∃ info, get_plugin_info url = Ok info ∧
                                  hydrated s' !! name = Some info
            | None => hydrated s' !! name = hydrated s !! name
            end).
  { split.
    - apply set_eq. intros name. rewrite !elem_of_dom.
      specialize (Hpoint name).
      destruct (hydrated s !! name) as [plugin|] eqn:Hpl; simpl in Hpoint.
      + destruct (task_url plugin).
        * destruct Hpoint as (info & _ & ->). split; by eexists.
        * by rewrite Hpoint.
      + by rewrite Hpoint.
    - intros name plugin Hpl. specialize (Hpoint name).
      rewrite Hpl in Hpoint. simpl in Hpoint.
      unfold task_url, lacks_version in *. split.
      + intros Hver. by destruct (assoc "version" plugin).
      + intros Hver. rewrite Hver in Hpoint.
        destruct (assoc "url" plugin) as [url|] eqn:Hurl.
        * destruct Hpoint as (info & Hfetch & Hnew). by exists url, info.
        * exfalso.
          unfold _hydrate_plugin_info, mbind, M_bind, gets, lift in Hrun.
          simpl in Hrun.
          pose proof (hydrate_tasks_spec (hydrated s)) as Hspec.
          destruct (hydrate_tasks (hydrated s)) as [tasks|e]; [|done].
          destruct Hspec as [-> Hdom].
          assert (Hin : name ∈ dom (lacking (hydrated s))).
          { apply elem_of_dom. exists plugin.
            by apply map_lookup_filter_Some. }
          rewrite <- Hdom in Hin. apply elem_of_dom in Hin as [url Hin].
          apply lookup_omap_Some in Hin as (plugin' & Hurl' & Hpl').
          rewrite Hpl in Hpl'. injection Hpl' as <-.
          unfold task_url in Hurl'. rewrite Hver in Hurl'. congruence. }
  intros name.
  unfold _hydrate_plugin_info, mbind, M_bind, gets, lift in Hrun.
  simpl in Hrun.
  pose proof (hydrate_tasks_spec (hydrated s)) as Hspec.
  destruct (hydrate_tasks (hydrated s)) as [tasks|e]; [|done].
  destruct Hspec as [Htasks Hdom]. simpl in Hrun.
  rewrite <- lookup_omap, <- Htasks.
  assert (Hnd : ∀ k, NoDup (completion_order k (map_to_list tasks)).*1).
  { intros k. rewrite (completion_order_perm k (map_to_list tasks)).
    apply NoDup_fst_map_to_list. }
  assert (Hmap : ∀ k, (list_to_map (completion_order k (map_to_list tasks))
                         : gmap string value) = tasks).
  { intros k. rewrite <- (list_to_map_to_list tasks) at 2.
    apply list_to_map_proper; [apply Hnd|apply completion_order_perm]. }
  destruct (Nat.eqb_spec (size tasks) 0) as [Hz|Hnz].
  { injection Hrun as <-. apply map_size_empty_iff in Hz. by rewrite Hz. }
  destruct (Nat.eqb_spec (size tasks) 1) as [Hone|Hmany]; simpl in Hrun.
  - pose proof (length_map_to_list tasks) as Hlen. rewrite Hone in Hlen.
    destruct (map_to_list tasks) as [|[nm url] [|]] eqn:Hlist; try done.
    unfold modify in Hrun. simpl in Hrun.
    destruct (get_plugin_info url) as [info|e] eqn:Hfetch; [|done].
    simpl in Hrun.
    pose proof (hydrate_from_pool_ok _ (Hnd _) _ _ Hrun name) as Hpool.
    rewrite Hmap in Hpool.
    destruct (tasks !! name) as [url'|] eqn:Hname; [done|].
    rewrite Hpool. simpl. apply lookup_insert_ne. intros ->.
    assert (Htask : tasks !! name = Some url).
    { apply elem_of_map_to_list. rewrite Hlist. set_solver. }
    congruence.
  - unfold modify in Hrun. simpl in Hrun.
    pose proof (hydrate_from_pool_ok _ (Hnd _) _ _ Hrun name) as Hpool.
    rewrite Hmap in Hpool.
    by destruct (tasks !! name).
Qed.

Lemma hydrate_replaces_lacking_entries_witness :
  ∃ s', @_hydrate_plugin_info sample_offline reversed
          (Hydration sample_plugins_map []) = (s', Ok tt) ∧
        dom (hydrated s') = dom sample_plugins_map.
Proof.
  eexists. split; [vm_compute; reflexivity|].
  refine (proj1 (@hydrate_replaces_lacking_entries sample_offline reversed
                   (Hydration sample_plugins_map []) _ _)).
  vm_compute. reflexivity.
Defined.

(** ** build_operator_skeleton *)

Lemma skeleton_paths_differ (full_path : string) :
  path_join full_path "__init__.py" ≠ path_join full_path "fiftyone.yml".
Proof.
  unfold path_join. simpl.
  destruct (_ || _); intros Heq.
  - by apply (inj (String.app full_path)) in Heq.
  - apply (inj (String.app full_path)) in Heq. discriminate.
Qed.

Lemma skeleton_execute_run `{PyRuntime} (environ : gmap string string)
    (p : params) (fs : filesystem) (d dir sub : string) :
  environ !! "FIFTYONE_PLUGINS_DIR" = Some d →
  attr_get (params_get p "directory" (VDict [])) "absolute_path" (VStr d)
  = Ok (VStr dir) →
  params_get p "plugin_subdirectory" (VStr "my_operator") = VStr sub →
  let full_path := path_join dir sub in
  let init_path := path_join full_path "__init__.py" in
  let yml_path := path_join full_path "fiftyone.yml" in
  BuildOperatorSkeleton.execute environ p fs
  = match _create_operator_skeleton_code p with
    | Ok code =>
        (FileSystem
           (<[yml_path := _create_fiftyone_yml_code p]>
              (<[init_path := code]> (files fs)))
           ({[full_path]} ∪ directories fs)
           (opened fs ++ [init_path; yml_path]), Ok tt)
    | Raise e =>
        (FileSystem (<[init_path := ""]> (files fs))
           ({[full_path]} ∪ directories fs)
           (opened fs ++ [init_path]), Raise e)
    end.
Proof.
  intros Henv Hdir Hsub full_path init_path yml_path.
  unfold BuildOperatorSkeleton.execute, _get_fo_plugins_dir.
  rewrite Henv. unfold mbind at 1, M_bind, lift at 1.
  unfold mbind at 1, M_bind, lift at 1. rewrite Hdir, Hsub.
  unfold mbind at 1, M_bind, lift at 1. simpl os_path_join. cbv beta iota.
  fold full_path. fold init_path. fold yml_path.
  unfold mbind, M_bind, modify, lift. simpl.
  destruct (_create_operator_skeleton_code p) as [code|e]; [|done].
  unfold write, open_w, makedirs. simpl.
  rewrite !alter_insert_eq, <- app_assoc. reflexivity.
Qed.




Lemma skeleton_execute_ok_inv `{PyRuntime} (environ : gmap string string)
    (p : params) (fs fs' : filesystem) :
  BuildOperatorSkeleton.execute environ p fs = (fs', Ok tt) →
  ∃ d dir sub,
    environ !! "FIFTYONE_PLUGINS_DIR" = Some d ∧
    attr_get (params_get p "directory" (VDict [])) "absolute_path" (VStr d)
    = Ok (VStr dir) ∧
    params_get p "plugin_subdirectory" (VStr "my_operator") = VStr sub.
Proof.
  unfold BuildOperatorSkeleton.execute, _get_fo_plugins_dir.
  destruct (environ !! "FIFTYONE_PLUGINS_DIR") as [d|] eqn:Henv;
    [|discriminate].
  unfold mbind at 1, M_bind, lift at 1.
  unfold mbind at 1, M_bind, lift at 1.
  destruct (attr_get _ _ _) as [dir|e] eqn:Hdir; [|discriminate].
  unfold mbind at 1, M_bind, lift at 1.
  destruct dir as [| | |dir| |]; try discriminate.
  destruct (params_get p "plugin_subdirectory" (VStr "my_operator"))
    as [| | |sub| |] eqn:Hsub; try discriminate.
  intros _. by exists d, dir, sub.
Qed.

(** C4: the code the preview step shows and the code execute writes to
    [__init__.py] are the same text, the result of
    [_create_operator_skeleton_code] on the parameters; and when the
    generator rejects the parameters, the preview raises its exception
    and execute does not return normally. *)
Theorem preview_shows_written_code `{PyRuntime} (p : params) :
  (∀ (inputs form : types.object) (environ : gmap string string)
     (fs fs' : filesystem),
     _operator_skeleton_view_code_flow p inputs = (form, Ok tt) →
     BuildOperatorSkeleton.execute environ p fs = (fs', Ok tt) →
     ∃ code full_path,
       _create_operator_skeleton_code p = Ok code ∧
       shown_code form = Some (VStr code) ∧
       path_join full_path "__init__.py" ∈ opened fs' ∧
       files fs' !! path_join full_path "__init__.py" = Some code) ∧
  (∀ e, _create_operator_skeleton_code p = Raise e →
        (∀ inputs, (_operator_skeleton_view_code_flow p inputs).2 = Raise e) ∧
        (∀ environ fs,
           (BuildOperatorSkeleton.execute environ p fs).2 ≠ Ok tt)).
Proof.
  split.
  - intros inputs form environ fs fs' Hflow Hexec.
    destruct (skeleton_execute_ok_inv _ _ _ _ Hexec)
      as (d & dir & sub & Henv & Hdir & Hsub).
    rewrite (skeleton_execute_run environ p fs d dir sub Henv Hdir Hsub)
      in Hexec.
    unfold _operator_skeleton_view_code_flow in Hflow. run_M_in Hflow.
    destruct (_create_operator_skeleton_code p) as [code|e]; [|done].
    injection Hflow as <-. injection Hexec as <-.
    exists code, (path_join dir sub). simpl. split_and!.
    + done.
    + unfold shown_code, types.str_prop, types.define_property.
      by rewrite assoc_assoc_set.
    + set_solver.
    + rewrite lookup_insert_ne by (symmetry; apply skeleton_paths_differ).
      apply lookup_insert_eq.
  - intros e Hcode. split.
    + intros inputs.
      unfold _operator_skeleton_view_code_flow. run_M. by rewrite Hcode.
    + intros environ fs Hok.
      destruct (BuildOperatorSkeleton.execute environ p fs) as [fs' r] eqn:Hexec.
      simpl in Hok. subst r.
      destruct (skeleton_execute_ok_inv _ _ _ _ Hexec)
        as (d & dir & sub & Henv & Hdir & Hsub).
      rewrite (skeleton_execute_run environ p fs d dir sub Henv Hdir Hsub)
        in Hexec.
      by rewrite Hcode in Hexec.
Qed.

Lemma preview_shows_written_code_witness :
  ∃ code full_path,
    @_create_operator_skeleton_code sample_runtime sample_skeleton = Ok code ∧
    shown_code (@_operator_skeleton_view_code_flow sample_runtime
                  sample_skeleton []).1 = Some (VStr code) ∧
    path_join full_path "__init__.py"
    ∈ opened (@BuildOperatorSkeleton.execute sample_runtime sample_environ
                sample_skeleton empty_fs).1 ∧
    files (@BuildOperatorSkeleton.execute sample_runtime sample_environ
             sample_skeleton empty_fs).1
      !! path_join full_path "__init__.py" = Some code.
Proof.
  refine (proj1 (@preview_shows_written_code sample_runtime sample_skeleton)
            [] _ sample_environ empty_fs _ _ _).
  - vm_compute. reflexivity.
  - vm_compute. reflexivity.
Defined.

Example sample_manifest :
  @_create_fiftyone_yml_code sample_runtime sample_skeleton
  = lines
      [""; "name: " +:+ dq +:+ "@github_username/plugin_name" +:+ dq;
       "version: " +:+ dq +:+ "0.0.1" +:+ dq;
       "description: " +:+ dq +:+ "My Plugin Description" +:+ dq;
       "operators:"; "  - count_samples"; ""].
Proof. vm_compute. reflexivity. Qed.

Example sample_class_header :
  @_create_class_header sample_runtime sample_skeleton
  = Ok ("class CountSamples(foo.Operator):" +:+ nl).
Proof. vm_compute. reflexivity. Qed.

Example sample_delegation_code :
  _operator_skeleton_delegation_code
    (<["delegated_execution_choices" := VStr "True"]> ∅)
  = Ok (lines [""; "def resolve_delegation(self, ctx):"; "    True"; ""]).
Proof. vm_compute. reflexivity. Qed.

(** * Further properties of the code *)

(** ** manage_plugins: the apply step *)

Lemma execute_submitted (p : params) (h : host) (flags : list bool) :
  p !! "tab" = Some (VStr "ENABLEMENT") →
  submitted p h flags →
  let en : gset string := list_to_set (list_enabled_plugins h) in
  let rows := zip (name <$> list_plugins h) flags in
  ManagePlugins.execute p h
  = Some (Host (installed h) (foldl (flip (apply_row en)) (enabled h) rows)
            (calls h ++ mjoin (expected_call en <$> rows)), Ok tt).
Proof.
  intros Htab Hsub en rows.
  pose proof (submitted_entries p h flags Hsub) as Hall.
  destruct Hsub as (Hlen & Hrows & Hgap).
  unfold ManagePlugins.execute, params_get. rewrite Htab. simpl.
  rewrite (_plugin_enablement_prefix p h (S (length (list_plugins h)))).
  - simpl. rewrite Nat.sub_0_r. by rewrite (run_entries_rows _ _ _ Hall).
  - lia.
  - intros j Hj.
    destruct (lookup_lt_is_Some_2 (list_plugins h) (j - 1)) as [pl Hpl];
      [lia|].
    destruct (lookup_lt_is_Some_2 flags (j - 1)) as [b Hb]; [lia|].
    destruct (Hrows _ _ _ Hpl Hb) as (obj & Hp & Hname & _).
    replace (S (j - 1)) with j in Hp by lia.
    unfold params_get. rewrite Hp. simpl. by intros ->.
  - unfold params_get. by rewrite Hgap.
Qed.

(** X1: execute of manage_plugins returns for every parameter mapping (the
    unbounded loop over [enablement1], [enablement2], ... always comes to
    an absent key), and with any tab other than ENABLEMENT, or none, it
    leaves the registry alone and makes no call. *)
Theorem manage_execute_returns (p : params) (h : host) :
  is_Some (ManagePlugins.execute p h) ∧
  (params_get p "tab" VNone ≠ VStr "ENABLEMENT" →
   ManagePlugins.execute p h = Some (h, Ok tt)).
Proof.
  unfold ManagePlugins.execute. split.
  - destruct (py_eq _ _); [apply _plugin_enablement_returns|by eexists].
  - intros Htab. apply py_eq_str_false in Htab. by rewrite Htab.
Qed.

Lemma manage_execute_returns_witness :
  ManagePlugins.execute
    (<["tab" := VStr "REQUIREMENTS"]> sample_submission) sample_host
  = Some (sample_host, Ok tt).
Proof.
  refine (proj2 (manage_execute_returns _ sample_host) _).
  vm_compute. discriminate.
Defined.

Lemma rows_settled (en : gset string) (rows : list (string * bool)) :
  (∀ n b, (n, b) ∈ rows → n ∈ en ↔ b = true) →
  mjoin (expected_call en <$> rows) = [] ∧
  ∀ E, foldl (flip (apply_row en)) E rows = E.
Proof.
  induction rows as [|[n b] rows IH]; intros Hrows; [done|].
  destruct IH as [IHcalls IHset].
  { intros n' b' Hin. apply Hrows. by right. }
  assert (Hrow : bool_decide (n ∈ en) = b).
  { specialize (Hrows n b ltac:(left)).
    case_bool_decide; destruct b; naive_solver. }
  split.
  - change (mjoin (expected_call en <$> (n, b) :: rows))
      with (expected_call en (n, b) ++ mjoin (expected_call en <$> rows))%list.
    rewrite IHcalls. unfold expected_call. rewrite Hrow. by destruct b.
  - intros E.
    change (foldl (flip (apply_row en)) E ((n, b) :: rows))
      with (foldl (flip (apply_row en)) (apply_row en (n, b) E) rows).
    rewrite IHset. unfold apply_row. rewrite Hrow. by destruct b.
Qed.

(** X2: submitting the same enablement form a second time changes
    nothing: after execute has applied the submitted switches, execute on
    the same parameters makes no further call and leaves the registry as
    it is. *)
Theorem resubmission_changes_nothing
    (p : params) (h : host) (flags : list bool) :
  p !! "tab" = Some (VStr "ENABLEMENT") →
  NoDup (name <$> list_plugins h) →
  submitted p h flags →
  ∃ h', ManagePlugins.execute p h = Some (h', Ok tt) ∧
        ManagePlugins.execute p h' = Some (h', Ok tt).
Proof.
  intros Htab Hnd Hsub. eexists. split.
  { by apply (execute_submitted p h flags). }
  set (en := list_to_set (list_enabled_plugins h) : gset string).
  set (rows := zip (name <$> list_plugins h) flags).
  set (h' := Host _ _ _).
  assert (Hsub' : submitted p h' flags) by exact Hsub.
  rewrite (execute_submitted p h' flags Htab Hsub').
  assert (Hfst : rows.*1 = name <$> list_plugins h).
  { destruct Hsub as (Hlen & _ & _). apply fst_zip. rewrite length_fmap. lia. }
  destruct (rows_settled (list_to_set (list_enabled_plugins h')) rows)
    as [Hcalls Hset].
  { intros n b Hin.
    assert (Hn : n ∈ name <$> list_plugins h).
    { rewrite <- Hfst. apply list_elem_of_fmap. by exists (n, b). }
    rewrite elem_of_list_to_set. unfold list_enabled_plugins at 1. simpl.
    rewrite list_elem_of_filter.
    assert (Hst : n ∈ foldl (flip (apply_row en)) (enabled h) rows
                  ↔ b = true).
    { apply apply_rows_status; [by rewrite Hfst| |done].
      intros s Hs. rewrite Hfst in Hs. unfold en, list_enabled_plugins.
      rewrite elem_of_list_to_set, list_elem_of_filter. tauto. }
    unfold list_plugins in *. tauto. }
  change (zip (name <$> list_plugins h') flags) with rows.
  rewrite Hcalls, Hset, app_nil_r. reflexivity.
Qed.

Lemma resubmission_changes_nothing_witness :
  ∃ h', ManagePlugins.execute sample_submission sample_host = Some (h', Ok tt) ∧
        ManagePlugins.execute sample_submission h' = Some (h', Ok tt).
Proof.
  apply (resubmission_changes_nothing sample_submission sample_host
           [false; true]).
  - vm_compute. reflexivity.
  - apply (bool_decide_unpack _). vm_compute. exact I.
  - split_and!.
    + reflexivity.
    + intros [|[|i]] plugin b Hpl Hb; simpl in Hpl, Hb;
        [injection Hpl as <-; injection Hb as <-..|discriminate].
      * eexists. split_and!; vm_compute; reflexivity.
      * eexists. split_and!; vm_compute; reflexivity.
    + vm_compute. reflexivity.
Defined.

Lemma enablement_rows_count `{PyRuntime} (p : params) (en : gset string)
    (plugins : list plugin_definition) :
  ∀ (flags : list bool) i inputs n,
    length flags = length plugins →
    (∀ j plugin b,
       plugins !! j = Some plugin → flags !! j = Some b →
       ∃ obj, p !! enablement_prop_name (i + j) = Some obj ∧
              getitem obj "enabled" = Ok (VBool b)) →
    ∃ inputs',
      enablement_rows p en i plugins (inputs, n)
      = ((inputs',
          (n + length (mjoin (expected_call en
                                <$> zip (name <$> plugins) flags)))%nat),
         Ok tt).
Proof.
  induction plugins as [|plugin plugins IH]; intros flags i inputs n Hlen Hrows.
  { destruct flags; [|done]. exists inputs. simpl. by rewrite Nat.add_0_r. }
  destruct flags as [|b flags]; [done|]. simpl in Hlen.
  destruct (Hrows 0%nat plugin b eq_refl eq_refl) as (obj & Hp & Hflag).
  rewrite Nat.add_0_r in Hp.
  assert (Hget : attr_get (params_get p (enablement_prop_name i) (VDict []))
                   "enabled" (VBool (bool_decide (name plugin ∈ en)))
                 = Ok (VBool b)).
  { unfold params_get. rewrite Hp. simpl. unfold getitem in Hflag.
    destruct obj; try done. simpl.
    destruct (assoc "enabled" d); [|done]. by injection Hflag as ->. }
  simpl enablement_rows. unfold mbind at 1, M_bind.
  unfold enablement_row. unfold mbind at 1, M_bind, lift at 1.
  rewrite Hget. unfold modify at 1. cbv beta iota.
  edestruct (IH flags (S i)) as [inputs' ->]; [lia| |].
  { intros j pl b' Hpl Hb'.
    destruct (Hrows (S j) pl b' Hpl Hb') as (obj' & Hp' & Hflag').
    exists obj'. by replace (S i + j)%nat with (i + S j)%nat by lia. }
  exists inputs'. do 2 f_equal.
  change (zip (name <$> plugin :: plugins) (b :: flags))
    with ((name plugin, b) :: zip (name <$> plugins) flags).
  change (mjoin (expected_call en
                   <$> (name plugin, b) :: zip (name <$> plugins) flags))
    with (expected_call en (name plugin, b)
          ++ mjoin (expected_call en <$> zip (name <$> plugins) flags))%list.
  rewrite length_app. unfold expected_call. simpl.
  destruct b, (bool_decide (name plugin ∈ en)); simpl; lia.
Qed.

(** X3: the status line of the enablement form announces what execute
    will do.  For the parameters the form submits, the form builder
    returns, and the number of plugins it says are about to change is
    the number of enable or disable calls execute makes; when that number
    is zero the status says that nothing has changed and is marked
    invalid. *)
Theorem enablement_status_counts_calls `{PyRuntime}
    (p : params) (h : host) (flags : list bool) (inputs : types.object) :
  p !! "tab" = Some (VStr "ENABLEMENT") →
  submitted p h flags →
  ∃ form h' k,
    _plugin_enablement_inputs p h inputs = (form, Ok tt) ∧
    ManagePlugins.execute p h = Some (h', Ok tt) ∧
    length (calls h') = (length (calls h) + k)%nat ∧
    assoc "enablement_status" form
    = Some (if (k =? 0)%nat
            then invalid_view (types.Notice "You have not made any changes")
            else
              let notice :=
                types.Notice ("You are about to change the enablement of "
                              +:+ pretty k +:+ " plugins") in
              types.Property (types.OfView notice) VNone false None None
                (Some notice) false).
Proof.
  intros Htab Hsub.
  set (en := list_to_set (list_enabled_plugins h) : gset string).
  set (rows := zip (name <$> list_plugins h) flags).
  set (k := length (mjoin (expected_call en <$> rows))).
  destruct (enablement_rows_count p en (list_plugins h) flags 1
              (types.define_property "enablement_header"
                 (types.Object
                    (types.str_prop "enabled" (VStr "**Enabled**") false None
                       None (Some (types.MarkdownView true (Some 2%Q)))
                       (types.str_prop "description" (VStr "**Description**")
                          false None None
                          (Some (types.MarkdownView true (Some 7%Q)))
                          (types.str_prop "name" (VStr "**Name**") false None
                             None (Some (types.MarkdownView true (Some 3%Q)))
                             []))))
                 VNone false None None None inputs) 0%nat)
    as [inputs' Hrows].
  { by destruct Hsub as (Hlen & _ & _). }
  { intros j plugin b Hpl Hb. destruct Hsub as (_ & Hall & _).
    destruct (Hall j plugin b Hpl Hb) as (obj & Hp & _ & Hflag).
    by exists obj. }
  assert (Hform :
    _plugin_enablement_inputs p h inputs
    = (if (k =? 0)%nat
       then types.set_invalid "enablement_status"
              (types.view_prop "enablement_status"
                 (types.Notice "You have not made any changes") inputs')
       else types.view_prop "enablement_status"
              (types.Notice ("You are about to change the enablement of "
                             +:+ pretty k +:+ " plugins")) inputs',
       Ok tt)).
  { unfold _plugin_enablement_inputs. fold en. rewrite Hrows. simpl.
    fold rows. fold k. by destruct k. }
  eexists _, _, k. split_and!.
  - exact Hform.
  - by apply (execute_submitted p h flags).
  - simpl. by rewrite length_app.
  - simpl. destruct (k =? 0)%nat; simpl.
    + unfold types.set_invalid, types.view_prop, types.define_property.
      by rewrite !assoc_assoc_set.
    + unfold types.view_prop, types.define_property.
      by rewrite assoc_assoc_set.
Qed.

Lemma enablement_status_counts_calls_witness :
  ∃ form h' k,
    @_plugin_enablement_inputs sample_runtime sample_submission sample_host []
    = (form, Ok tt) ∧
    ManagePlugins.execute sample_submission sample_host = Some (h', Ok tt) ∧
    length (calls h') = (length (calls sample_host) + k)%nat ∧
    assoc "enablement_status" form
    = Some (if (k =? 0)%nat
            then invalid_view (types.Notice "You have not made any changes")
            else
              let notice :=
                types.Notice ("You are about to change the enablement of "
                              +:+ pretty k +:+ " plugins") in
              types.Property (types.OfView notice) VNone false None None
                (Some notice) false).
Proof.
  apply (@enablement_status_counts_calls sample_runtime sample_submission
           sample_host [false; true] []).
  - vm_compute. reflexivity.
  - split_and!.
    + reflexivity.
    + intros [|[|i]] plugin b Hpl Hb; simpl in Hpl, Hb;
        [injection Hpl as <-; injection Hb as <-..|discriminate].
      * eexists. split_and!; vm_compute; reflexivity.
      * eexists. split_and!; vm_compute; reflexivity.
    + vm_compute. reflexivity.
Defined.

Example sample_status_line :
  assoc "enablement_status"
    (@_plugin_enablement_inputs sample_runtime sample_submission sample_host
       []).1
  = Some (let notice :=
            types.Notice "You are about to change the enablement of 2 plugins"
          in types.Property (types.OfView notice) VNone false None None
               (Some notice) false).
Proof. vm_compute. reflexivity. Qed.





Lemma enablement_form_rows_witness :
  ∃ edited,
    assoc "enablement2"
      (@_plugin_enablement_inputs sample_runtime sample_submission sample_host
         []).1
    = Some (@enablement_row_property sample_runtime
              (PluginDefinition "@voxel51/zoo"
                 (VStr "https://github.com/voxel51/zoo") VNone (VStr "0.2.1"))
              false edited).
Proof.
  refine (proj1 (@enablement_form_rows sample_runtime sample_submission
                   sample_host [] _ _) 1%nat _ _).
  - vm_compute. reflexivity.
  - reflexivity.
Defined.

(** ** install_plugin: hydration *)

Lemma foldl_add_task_exn l : ∀ acc e,
  foldl add_task (Ok acc) l = Raise e → e = KeyError "url".
Proof.
  induction l as [|[name plugin] l IH]; intros acc e Hfold; [done|].
  change (foldl add_task (Ok acc) ((name, plugin) :: l))
    with (foldl add_task (add_task (Ok acc) (name, plugin)) l) in Hfold.
  assert (Hstep : add_task (Ok acc) (name, plugin)
                  = match assoc "version" plugin with
                    | None => url ← dict_item plugin "url";
                              Ok (<[name := url]> acc)
                    | Some _ => Ok acc
                    end) by done.
  rewrite Hstep in Hfold. clear Hstep.
  destruct (assoc "version" plugin); [by eapply IH|].
  unfold dict_item in Hfold.
  destruct (assoc "url" plugin); simpl in Hfold; [by eapply IH|].
  rewrite foldl_add_task_raise in Hfold. congruence.
Qed.

(** X6: one entry with neither a version nor a url makes hydration fail
    before anything is fetched: [_hydrate_plugin_info] raises the key
    error for [url], the plugins map is untouched (also the entries that
    could have been fetched), and neither a direct fetch nor a pool has
    been started. *)
Theorem hydrate_needs_url `{Utils} `{Scheduler} (s : hydration)
    (name : string) (plugin : dict) :
  hydrated s !! name = Some plugin →
  assoc "version" plugin = None →
  assoc "url" plugin = None →
  _hydrate_plugin_info s = (s, Raise (KeyError "url")).
Proof.
  intros Hpl Hver Hurl.
  unfold _hydrate_plugin_info. run_M. unfold hydrate_tasks.
  pose proof (foldl_add_task (map_to_list (hydrated s))
                (NoDup_fst_map_to_list _) ∅) as Hspec.
  destruct (foldl add_task (Ok ∅) (map_to_list (hydrated s)))
    as [tasks|e] eqn:Hfold.
  - destruct Hspec as [_ Hall]. rewrite Forall_forall in Hall.
    destruct (Hall (name, plugin)) as [url Hsome]; [|done|].
    + by apply elem_of_map_to_list.
    + simpl in Hsome. congruence.
  - by rewrite (foldl_add_task_exn _ _ _ Hfold).
Qed.

Lemma hydrate_needs_url_witness :
  let s := Hydration (<["@me/draft" := [("name", VStr "@me/draft")]]>
                        sample_plugins_map) [] in
  @_hydrate_plugin_info sample_offline in_order s
  = (s, Raise (KeyError "url")).
Proof.
  intros s.
  apply (@hydrate_needs_url sample_offline in_order s "@me/draft"
           [("name", VStr "@me/draft")]).
  - vm_compute. reflexivity.
  - reflexivity.
  - reflexivity.
Defined.






Lemma hydrate_entries `{Utils} `{Scheduler} (s s' : hydration) :
  _hydrate_plugin_info s = (s', Ok tt) →
  ∀ name,
    match hydrated s !! name ≫= task_url with
    | Some url => ∃ info, get_plugin_info url = Ok info ∧
                          hydrated s' !! name = Some info
    | None => hydrated s' !! name = hydrated s !! name ∧
              ∀ plugin, hydrated s !! name = Some plugin →
                        ¬ lacks_version plugin
    end.
Proof.
  intros Hrun name. unfold _hydrate_plugin_info in Hrun. run_M_in Hrun.
  pose proof (hydrate_tasks_spec (hydrated s)) as Hspec.
  destruct (hydrate_tasks (hydrated s)) as [tasks|e]; [|done].
  destruct Hspec as [Htasks Hdom]. simpl in Hrun.
  assert (Hversioned : tasks !! name = None →
            ∀ plugin, hydrated s !! name = Some plugin →
                      ¬ lacks_version plugin).
  { intros Hnone plugin Hpl Hlacks.
    assert (Hin : name ∈ dom (lacking (hydrated s))).
    { apply elem_of_dom. exists plugin. by apply map_lookup_filter_Some. }
    rewrite <- Hdom in Hin. apply elem_of_dom in Hin as [url Hin]. congruence. }
  rewrite <- lookup_omap, <- Htasks.
  assert (Hnd : ∀ k, NoDup (completion_order k (map_to_list tasks)).*1).
  { intros k. rewrite (completion_order_perm k (map_to_list tasks)).
    apply NoDup_fst_map_to_list. }
  assert (Hmap : ∀ k, (list_to_map (completion_order k (map_to_list tasks))
                         : gmap string value) = tasks).
  { intros k. rewrite <- (list_to_map_to_list tasks) at 2.
    apply list_to_map_proper; [apply Hnd|apply completion_order_perm]. }
  destruct (Nat.eqb_spec (size tasks) 0) as [Hz|Hnz].
  { injection Hrun as <-. apply map_size_empty_iff in Hz.
    specialize (Hversioned ltac:(by rewrite Hz)). by rewrite Hz. }
  destruct (Nat.eqb_spec (size tasks) 1) as [Hone|Hmany]; simpl in Hrun.
  - pose proof (length_map_to_list tasks) as Hlen. rewrite Hone in Hlen.
    destruct (map_to_list tasks) as [|[nm url] [|]] eqn:Hlist; try done.
    simpl in Hrun.
    destruct (get_plugin_info url) as [info|e] eqn:Hfetch; [|done].
    simpl in Hrun.
    pose proof (hydrate_from_pool_ok _ (Hnd _) _ _ Hrun name) as Hpool.
    rewrite Hmap in Hpool.
    destruct (tasks !! name) as [url'|] eqn:Hname; [done|].
    split; [|by apply Hversioned].
    rewrite Hpool. simpl. apply lookup_insert_ne. intros ->.
    assert (Htask : tasks !! name = Some url).
    { apply elem_of_map_to_list. rewrite Hlist. set_solver. }
    congruence.
  - pose proof (hydrate_from_pool_ok _ (Hnd _) _ _ Hrun name) as Hpool.
    rewrite Hmap in Hpool.
    destruct (tasks !! name); [done|]. split; [done|by apply Hversioned].
Qed.

(** X8: hydrating twice fetches once.  When the metadata that
    [get_plugin_info] returns carries a version key, a plugins map that
    [_hydrate_plugin_info] has hydrated has no entry left to fetch: a
    second call returns at once, starts no fetch and no pool, and leaves
    the map as it is. *)
Theorem hydrate_again_is_noop `{Utils} `{Scheduler} (s s' : hydration) :
  (∀ url info, get_plugin_info url = Ok info →
               is_Some (assoc "version" info)) →
  _hydrate_plugin_info s = (s', Ok tt) →
  _hydrate_plugin_info s' = (s', Ok tt).
Proof.
  intros Hversion Hrun.
  assert (Hnone : lacking (hydrated s') = ∅).
  { apply map_empty. intros name.
    apply eq_None_not_Some. intros [plugin Hlook].
    apply map_lookup_filter_Some in Hlook as [Hpl Hlacks]. simpl in Hlacks.
    pose proof (hydrate_entries s s' Hrun name) as Hentry.
    destruct (hydrated s !! name ≫= task_url) as [url|] eqn:Htask.
    - destruct Hentry as (info & Hfetch & Hnew).
      rewrite Hpl in Hnew. injection Hnew as ->.
      destruct (Hversion _ _ Hfetch) as [ver Hver].
      unfold lacks_version in Hlacks. congruence.
    - destruct Hentry as [Hsame Hversioned].
      rewrite Hpl in Hsame. by apply (Hversioned plugin). }
  unfold _hydrate_plugin_info. run_M.
  pose proof (hydrate_tasks_spec (hydrated s')) as Hspec.
  destruct (hydrate_tasks (hydrated s')) as [tasks|e]; [|done].
  destruct Hspec as [_ Hdom]. simpl.
  assert (size tasks = 0%nat) as ->; [|done].
  rewrite <- size_dom, Hdom, Hnone, dom_empty_L. apply size_empty.
Qed.

Lemma hydrate_again_is_noop_witness :
  ∃ s', @_hydrate_plugin_info sample_offline in_order
          (Hydration sample_plugins_map []) = (s', Ok tt) ∧
        @_hydrate_plugin_info sample_offline in_order s' = (s', Ok tt).
Proof.
  eexists. split; [vm_compute; reflexivity|].
  apply (@hydrate_again_is_noop sample_offline in_order
           (Hydration sample_plugins_map [])).
  - intros url info. simpl.
    destruct (py_eq url _); [|discriminate].
    intros [= <-]. vm_compute. by eexists.
  - vm_compute. reflexivity.
Defined.

(** ** install_plugin: the updates the form announces *)

Lemma mapM_result_Ok {A B} (f : A → result B) (l : list A) (r : list B) :
  mapM (M := result) f l = Ok r → Forall2 (λ x y, f x = Ok y) l r.
Proof.
  revert r. induction l as [|x l IH]; intros r Hmap; simpl in Hmap.
  { injection Hmap as <-. constructor. }
  destruct (f x) as [y|e] eqn:Hfx; simpl in Hmap; [|done].
  destruct (mapM f l) as [ys|e]; simpl in Hmap; [|done].
  injection Hmap as <-. constructor; [done|by apply IH].
Qed.

Lemma installed_map_lookup (plugins : list plugin_definition) :
  ∀ (m : gmap string plugin_definition) n c,
    foldl (λ m p, <[name p := p]> m) m plugins !! n = Some c →
    (c ∈ plugins ∧ name c = n) ∨ m !! n = Some c.
Proof.
  induction plugins as [|pd plugins IH]; intros m n c Hlook; [by right|].
  simpl in Hlook. apply IH in Hlook as [[Hin Hn]|Hlook].
  - left. split; [by right|done].
  - destruct (decide (name pd = n)) as [Heq|Hne].
    + rewrite Heq, lookup_insert_eq in Hlook. injection Hlook as <-.
      left. split; [by left|done].
    + rewrite lookup_insert_ne in Hlook by done. by right.
Qed.

Lemma installed_map_dom (plugins : list plugin_definition) :
  ∀ m : gmap string plugin_definition,
    dom (foldl (λ m p, <[name p := p]> m) m plugins)
    = list_to_set (name <$> plugins) ∪ dom m.
Proof.
  induction plugins as [|pd plugins IH]; intros m; simpl.
  - set_solver.
  - rewrite IH, dom_insert_L. set_solver.
Qed.

(** X9: the updates that the install form announces are exactly the
    requested plugins that are already installed: when [_get_updates]
    returns, its rows name each such plugin once, in ascending order of
    name, and no other; each row carries the version of an installed
    plugin of that name.  In particular nothing is announced when none
    of the requested plugins is installed. *)
Theorem updates_are_installed_requests `{PyRuntime} `{Utils} `{Scheduler}
    (plugin_names : value) (plugins : list dict) (h : host)
    (items : list value) (updates : list (string * value * value)) :
  py_iter plugin_names = Ok items →
  _get_updates plugin_names plugins h = Ok updates →
  let names := (λ u, u.1.1) <$> updates in
  Sorted String.le names ∧
  NoDup names ∧
  (∀ n, n ∈ names ↔ VStr n ∈ items ∧ n ∈ name <$> list_plugins h) ∧
  (∀ n curr_ver ver, (n, curr_ver, ver) ∈ updates →
     ∃ pd, pd ∈ list_plugins h ∧ name pd = n ∧ version pd = curr_ver).
Proof.
  intros Hiter Hupd names. unfold _get_updates in Hupd.
  set (curr := foldl (λ m p, <[name p := p]> m) ∅ (list_plugins h)) in Hupd.
  unfold update_names_of in Hupd. rewrite Hiter in Hupd. simpl in Hupd.
  destruct (forallb hashable items); [|done]. simpl in Hupd.
  set (requested := list_to_set
         (omap (λ v, match v with VStr s => Some s | _ => None end) items)
         : gset string) in Hupd.
  set (update_names := merge_sort String.le (elements (requested ∩ dom curr)))
    in Hupd.
  assert (Hrows : Forall2 (λ n u, u.1.1 = n ∧
                    ∃ c, curr !! n = Some c ∧ u.1.2 = version c)
                    update_names updates).
  { destruct update_names as [|n0 rest] eqn:Hnames.
    { injection Hupd as <-. constructor. }
    destruct (plugins_map_of plugins (n0 :: rest)) as [pm|e]; [|done].
    unfold mbind at 1, result_bind at 1 in Hupd.
    destruct (_hydrate_plugin_info _) as [after [[]|e]]; [|done].
    unfold mbind at 1, result_bind at 1 in Hupd.
    apply mapM_result_Ok in Hupd.
    eapply Forall2_impl; [exact Hupd|]. simpl. intros n u Hu.
    destruct (curr !! n) as [c|] eqn:Hc; [|done]. simpl in Hu.
    destruct (hydrated after !! n) as [pl|]; [|done]. simpl in Hu.
    destruct (dict_item pl "version") as [ver|]; [|done]. simpl in Hu.
    injection Hu as <-. split; [done|]. by exists c. }
  assert (Hnames : names = update_names).
  { unfold names. clear -Hrows. induction Hrows as [|n u ns us [Hn _] _ IH];
      [done|]. rewrite fmap_cons, IH. by rewrite Hn. }
  assert (Hperm : update_names ≡ₚ elements (requested ∩ dom curr))
    by apply merge_sort_Permutation.
  split_and!.
  - rewrite Hnames. apply (Sorted_merge_sort String.le).
  - rewrite Hnames, Hperm. apply NoDup_elements.
  - intros n. rewrite Hnames, Hperm, elem_of_elements, elem_of_intersection.
    unfold requested, curr.
    rewrite elem_of_list_to_set, list_elem_of_omap, installed_map_dom.
    rewrite dom_empty_L, (right_id_L ∅ (∪)), elem_of_list_to_set.
    split.
    + intros [(v & Hv & Hs) Hin]. destruct v; try done.
      injection Hs as ->. by split.
    + intros [Hv Hin]. split; [|done]. by exists (VStr n).
  - intros n curr_ver ver Hin.
    apply list_elem_of_lookup in Hin as [i Hi].
    destruct (Forall2_lookup_r _ _ _ _ _ Hrows Hi)
      as (n' & _ & Hn & c & Hc & Hver).
    simpl in *. subst n'.
    apply installed_map_lookup in Hc as [[Hcin Hcn]|Hc]; [|done].
    by exists c.
Qed.

Example sample_updates :
  @_get_updates sample_runtime sample_offline in_order sample_request
    sample_found sample_host
  = Ok [("@voxel51/io", VStr "1.0.0", VStr "1.1.0")].
Proof. vm_compute. reflexivity. Qed.

Lemma updates_are_installed_requests_witness :
  "@voxel51/brain" ∈ ["@voxel51/io"] ↔
  VStr "@voxel51/brain" ∈ [VStr "@voxel51/io"; VStr "@voxel51/brain"] ∧
  "@voxel51/brain" ∈ name <$> list_plugins sample_host.
Proof.
  refine (proj1 (proj2 (proj2
            (@updates_are_installed_requests sample_runtime sample_offline
               in_order sample_request sample_found sample_host
               [VStr "@voxel51/io"; VStr "@voxel51/brain"]
               [("@voxel51/io", VStr "1.0.0", VStr "1.1.0")] _ _)))
            "@voxel51/brain").
  - reflexivity.
  - vm_compute. reflexivity.
Defined.

(** ** install_plugin: the zoo location *)

Lemma _get_zoo_plugin_location_unfold `{Utils} (plugin_name : value) :
  _get_zoo_plugin_location plugin_name
  = '(voxel51_plugins, community_plugins) ← get_zoo_plugins;
    zoo_search plugin_name (voxel51_plugins ++ community_plugins)%list.
Proof.
  unfold _get_zoo_plugin_location.
  destruct get_zoo_plugins as [[voxel51 community]|e]; [|done]. simpl.
  induction (voxel51 ++ community)%list as [|plugin plugins IH]; [done|].
  simpl. destruct (dict_item plugin "name") as [n|]; [|done]. simpl.
  by destruct (py_eq n plugin_name).
Qed.

Lemma zoo_search_found (plugin_name : value) (plugins : list dict)
    (loc : value) :
  zoo_search plugin_name plugins = Ok loc →
  (∃ before plugin after n,
     plugins = (before ++ plugin :: after)%list ∧
     Forall (other_name plugin_name) before ∧
     dict_item plugin "name" = Ok n ∧ py_eq n plugin_name = true ∧
     dict_item plugin "url" = Ok loc) ∨
  (loc = VNone ∧ Forall (other_name plugin_name) plugins).
Proof.
  induction plugins as [|plugin plugins IH]; simpl; intros Hsearch.
  { injection Hsearch as <-. by right. }
  destruct (dict_item plugin "name") as [n|] eqn:Hn; [|done]. simpl in Hsearch.
  destruct (py_eq n plugin_name) eqn:Heq.
  - left. by exists [], plugin, plugins, n.
  - assert (Hother : other_name plugin_name plugin) by by exists n.
    destruct (IH Hsearch)
      as [(before & pl & after & m & -> & Hbefore & Hm & Hmeq & Hurl)
         |[-> Hall]].
    + left. exists (plugin :: before), pl, after, m.
      split_and!; try done. by constructor.
    + right. split; [done|]. by constructor.
Qed.

Lemma zoo_search_absent (plugin_name : value) (plugins : list dict) :
  Forall (other_name plugin_name) plugins →
  zoo_search plugin_name plugins = Ok VNone.
Proof.
  induction 1 as [|plugin plugins (n & Hn & Hne) _ IH]; [done|].
  simpl. rewrite Hn. simpl. by rewrite Hne.
Qed.

(** X10: the location of a zoo plugin is the url of the first plugin of
    that name, the Voxel51 listing being searched before the community
    listing; when the lookup returns and no listed plugin has the name,
    the location is [None]. *)
Theorem zoo_location_is_first_match `{Utils} (plugin_name loc : value)
    (voxel51_plugins community_plugins : list dict) :
  get_zoo_plugins = Ok (voxel51_plugins, community_plugins) →
  _get_zoo_plugin_location plugin_name = Ok loc →
  (∃ before plugin after n,
     (voxel51_plugins ++ community_plugins
      = before ++ plugin :: after)%list ∧
     Forall (other_name plugin_name) before ∧
     dict_item plugin "name" = Ok n ∧ py_eq n plugin_name = true ∧
     dict_item plugin "url" = Ok loc) ∨
  (loc = VNone ∧
   Forall (other_name plugin_name) (voxel51_plugins ++ community_plugins)).
Proof.
  intros Hzoo. rewrite _get_zoo_plugin_location_unfold, Hzoo. simpl.
  apply zoo_search_found.
Qed.

(** X11: installing a zoo plugin under a name that neither listing
    carries does not fail in the operator: execute asks the host to
    download from the location [None], with the chosen name as the only
    plugin and overwriting enabled. *)
Theorem unlisted_zoo_plugin_downloads_none `{Utils} (p : params) (h : host)
    (tab param : string) (plugin_name : value)
    (voxel51_plugins community_plugins : list dict) :
  (tab = "VOXEL51" ∧ param = "voxel51_plugin") ∨
  (tab = "COMMUNITY" ∧ param = "community_plugin") →
  p !! "tab" = Some (VStr tab) →
  p !! param = Some plugin_name →
  get_zoo_plugins = Ok (voxel51_plugins, community_plugins) →
  Forall (other_name plugin_name) (voxel51_plugins ++ community_plugins) →
  InstallPlugin.execute p h
  = (Host (installed h) (enabled h)
       (calls h ++ [download_plugin_call VNone (VList [plugin_name]) true]),
     Ok tt).
Proof.
  intros Htab Hp Hname Hzoo Hall.
  assert (Hloc : _get_zoo_plugin_location plugin_name = Ok VNone).
  { rewrite _get_zoo_plugin_location_unfold, Hzoo. simpl.
    by apply zoo_search_absent. }
  unfold InstallPlugin.execute, _install_plugin, params_get, params_item.
  rewrite Hp. simpl.
  destruct Htab as [[-> ->]|[-> ->]]; simpl; rewrite Hname; run_M;
    by rewrite Hloc.
Qed.

Lemma zoo_location_is_first_match_witness :
  ∃ before plugin after n,
    (sample_voxel51_listing ++ sample_community_listing
     = before ++ plugin :: after)%list ∧
    Forall (other_name (VStr "@voxel51/io")) before ∧
    dict_item plugin "name" = Ok n ∧
    py_eq n (VStr "@voxel51/io") = true ∧
    dict_item plugin "url" = Ok (VStr "https://github.com/voxel51/io").
Proof.
  destruct (@zoo_location_is_first_match sample_zoo (VStr "@voxel51/io")
              (VStr "https://github.com/voxel51/io")
              sample_voxel51_listing sample_community_listing eq_refl)
    as [Hfound|[Hnone _]].
  - vm_compute. reflexivity.
  - exact Hfound.
  - discriminate.
Defined.

Lemma unlisted_zoo_plugin_downloads_none_witness :
  @InstallPlugin.execute sample_zoo sample_zoo_choice sample_host
  = (Host (installed sample_host) (enabled sample_host)
       [download_plugin_call VNone (VList [VStr "@someone/gone"]) true],
     Ok tt).
Proof.
  apply (@unlisted_zoo_plugin_downloads_none sample_zoo sample_zoo_choice
           sample_host "COMMUNITY" "community_plugin" (VStr "@someone/gone")
           sample_voxel51_listing sample_community_listing).
  - right. by split.
  - vm_compute. reflexivity.
  - vm_compute. reflexivity.
  - reflexivity.
  - repeat constructor; eexists; split; vm_compute; reflexivity.
Defined.

(** ** build_operator_skeleton: the generated code *)

Lemma config_code_result `{PyRuntime} (p : params) :
  if is_dict (params_get p "config_bool_props" (VDict [])) &&
     is_dict (params_get p "config_icon_props" (VDict []))
  then ∃ code, _create_operator_config_code p = Ok code
  else _create_operator_config_code p = Raise AttributeError.
Proof.
  unfold _create_operator_config_code.
  destruct (params_get p "config_bool_props" (VDict [])); try done;
    destruct (params_get p "config_icon_props" (VDict [])); try done.
  simpl is_dict. simpl andb. cbv iota. unfold attr_get.
  unfold mbind, result_bind. by eexists.
Qed.

Lemma execution_code_result `{PyRuntime} (p : params) :
  if negb (truthy (params_get p "operator_execution_has_trigger"
                     (VBool false)))
     || offered TRIGGER_CHOICES
          (params_get p "operator_execution_trigger"
             (first_choice TRIGGER_CHOICES))
  then ∃ code, _operator_skeleton_execution_code p = Ok code
  else _operator_skeleton_execution_code p
       = Raise (ValueError "Invalid trigger type").
Proof.
  unfold _operator_skeleton_execution_code, offered, TRIGGER_CHOICES.
  destruct (truthy _); [|by eexists]. cbn [negb orb existsb].
  repeat (destruct (py_eq _ _); [by eexists|]). done.
Qed.

Lemma delegation_code_result (p : params) :
  if offered ["False"; "True"; "User Choice"]
       (params_get p "delegated_execution_choices" (VStr "False"))
  then ∃ code, _operator_skeleton_delegation_code p = Ok code
  else _operator_skeleton_delegation_code p
       = Raise (ValueError "Invalid delegation choice").
Proof.
  unfold _operator_skeleton_delegation_code, offered. cbn [existsb].
  repeat (destruct (py_eq _ _); [by eexists|]). done.
Qed.

Lemma class_name_result `{PyRuntime} (p : params) :
  if is_str (params_get p "operator_name" (VStr "my_operator"))
  then ∃ class_name, _create_operator_class_name p = Ok class_name
  else _create_operator_class_name p = Raise AttributeError.
Proof.
  unfold _create_operator_class_name.
  destruct (params_get p "operator_name" (VStr "my_operator")); try done.
  by eexists.
Qed.

(** X12: the code generator raises on exactly the parameter mappings
    that [generator_accepts] excludes, and with one of three exceptions:
    the attribute error of a value that is used as an object or as a
    string without being one, or the value error of a trigger type or of a
    delegation choice that is not among the known ones.  In particular
    every trigger of [TRIGGER_CHOICES] is accepted. *)
Theorem generator_raises_exactly `{PyRuntime} (p : params) :
  if generator_accepts p
  then ∃ code, _create_operator_skeleton_code p = Ok code
  else ∃ e, _create_operator_skeleton_code p = Raise e ∧
            e ∈ [AttributeError; ValueError "Invalid trigger type";
                 ValueError "Invalid delegation choice"].
Proof.
  unfold generator_accepts, _create_operator_skeleton_code,
    _create_class_header, _create_footer.
  pose proof (config_code_result p) as Hconfig.
  pose proof (execution_code_result p) as Hexec.
  pose proof (delegation_code_result p) as Hdeleg.
  pose proof (class_name_result p) as Hclass.
  destruct (is_dict _ && is_dict _).
  2:{ rewrite Hconfig. exists AttributeError. split; [done|set_solver]. }
  destruct Hconfig as [config ->]. cbn [andb mbind result_bind].
  destruct (negb _ || offered TRIGGER_CHOICES _).
  2:{ rewrite Hexec. eexists. split; [done|set_solver]. }
  destruct Hexec as [exec ->]. cbn [andb mbind result_bind].
  destruct (offered ["False"; "True"; "User Choice"] _).
  2:{ rewrite Hdeleg. eexists. split; [done|set_solver]. }
  destruct Hdeleg as [deleg ->]. cbn [andb mbind result_bind].
  destruct (is_str _).
  2:{ rewrite Hclass. exists AttributeError. split; [done|set_solver]. }
  destruct Hclass as [class_name ->]. cbn [mbind result_bind].
  by eexists.
Qed.

Example bad_delegation_rejected :
  generator_accepts sample_bad_delegation = false ∧
  generator_accepts sample_skeleton = true.
Proof. split; vm_compute; reflexivity. Qed.

Lemma newline_runs_short_triple (a b : string) : ∀ run,
  newline_runs_short run (a +:+ nl +:+ nl +:+ nl +:+ b) = false.
Proof.
  induction a as [|c a IH]; intros run; simpl.
  - destruct run as [|[|run]]; simpl; try done.
  - destruct (Ascii.eqb c "010"); [|apply IH].
    rewrite IH. apply andb_false_r.
Qed.

Lemma squeeze_newlines_short (s : string) : ∀ run,
  newline_runs_short 0 (squeeze_newlines run s) = true.
Proof.
  induction s as [|c s IH]; intros run.
  - simpl. destruct run as [|[|[|run]]]; done.
  - simpl. destruct (Ascii.eqb c "010") eqn:Hc; [apply IH|].
    destruct run as [|[|[|run]]]; simpl; rewrite ?Hc; apply IH.
Qed.

Lemma squeeze_newlines_id (s : string) : ∀ run,
  (run ≤ 2)%nat →
  newline_runs_short run s = true →
  squeeze_newlines run s = join "" (replicate run nl) +:+ s.
Proof.
  induction s as [|c s IH]; intros run Hrun Hshort.
  - simpl. destruct run as [|[|[|run]]]; [done..|lia].
  - simpl in *. destruct (Ascii.eqb_spec c "010") as [->|Hc].
    + apply andb_prop in Hshort as [Hlt Hshort].
      apply Nat.ltb_lt in Hlt. rewrite IH by (done || lia).
      destruct run as [|[|run]]; [done..|lia].
    + rewrite (IH 0%nat) by (done || lia).
      destruct run as [|[|[|run]]]; [done..|lia].
Qed.

(** X13: [replace_extra_newlines] leaves no three line feeds in a row,
    and changes nothing in a text that has none, so applying it twice is
    the same as applying it once; the code the generator returns
    therefore never has three line feeds in a row. *)
Theorem generated_code_newlines `{PyRuntime} :
  (∀ text, triple_newline_free (replace_extra_newlines text)) ∧
  (∀ text, replace_extra_newlines (replace_extra_newlines text)
           = replace_extra_newlines text) ∧
  (∀ p code, _create_operator_skeleton_code p = Ok code →
             triple_newline_free code).
Proof.
  assert (Hfree : ∀ text, triple_newline_free (replace_extra_newlines text)).
  { intros text a b Heq.
    pose proof (squeeze_newlines_short text 0) as Hshort.
    unfold replace_extra_newlines in Heq. rewrite Heq in Hshort.
    by rewrite newline_runs_short_triple in Hshort. }
  split_and!.
  - exact Hfree.
  - intros text. unfold replace_extra_newlines.
    by rewrite (squeeze_newlines_id _ 0%nat)
      by (lia || apply squeeze_newlines_short).
  - intros p code Hcode. unfold _create_operator_skeleton_code in Hcode.
    destruct (_create_operator_config_code p); [|done].
    cbn [mbind result_bind] in Hcode.
    destruct (_operator_skeleton_execution_code p); [|done].
    cbn [mbind result_bind] in Hcode.
    destruct (_operator_skeleton_delegation_code p); [|done].
    cbn [mbind result_bind] in Hcode.
    destruct (_create_class_header p); [|done].
    cbn [mbind result_bind] in Hcode.
    destruct (_create_footer p); [|done].
    cbn [mbind result_bind] in Hcode.
    injection Hcode as <-. apply Hfree.
Qed.

Lemma generated_code_newlines_witness :
  ∃ code,
    @_create_operator_skeleton_code sample_runtime sample_skeleton = Ok code ∧
    triple_newline_free code.
Proof.
  eexists. split; [vm_compute; reflexivity|].
  apply (proj2 (proj2 (@generated_code_newlines sample_runtime))
           sample_skeleton).
  vm_compute. reflexivity.
Defined.

(** ** build_operator_skeleton: what execute leaves behind *)



(** ** Text helpers *)

Lemma split_on_nonempty (c : ascii) (s : string) : split_on c s ≠ [].
Proof.
  destruct s as [|a s]; simpl; [done|].
  destruct (Ascii.eqb a c); [done|]. by destruct (split_on c s).
Qed.

Lemma join_cons (sep s : string) (parts : list string) :
  parts ≠ [] → join sep (s :: parts) = s +:+ sep +:+ join sep parts.
Proof. by destruct parts. Qed.

Lemma join_indented (ls : list string) :
  ls ≠ [] →
  "    " +:+ join (nl +:+ "    ") ls = join nl ((λ l, "    " +:+ l) <$> ls).
Proof.
  induction ls as [|l ls IH]; [done|]. intros _.
  destruct ls as [|l' ls]; [done|].
  specialize (IH ltac:(done)).
  rewrite fmap_cons, (join_cons (nl +:+ "    ")) by done.
  rewrite (join_cons nl) by (by rewrite fmap_cons).
  rewrite <- IH. reflexivity.
Qed.

(** X15: replacing a one-character separator is splitting at it and
    joining with the replacement; and so [indent_code] does what its
    comment says: it puts four spaces in front of every line of the
    dedented code, the empty lines included. *)
Theorem indent_code_indents_every_line :
  (∀ (c : ascii) (new s : string),
     replace (String c "") new s = join new (split_on c s)) ∧
  (∀ code,
     indent_code code
     = join nl ((λ l, "    " +:+ l) <$> split_on "010" (dedent code))).
Proof.
  assert (Hreplace : ∀ (c : ascii) (new s : string),
            replace (String c "") new s = join new (split_on c s)).
  { intros c new s. unfold replace.
    induction s as [|a s IH]; [done|].
    simpl. destruct (Ascii.eqb_spec a c) as [->|Hne].
    - destruct (ascii_dec c c) as [_|]; [|done].
      assert (String.prefix "" s = true) as -> by (by destruct s).
      rewrite join_cons by apply split_on_nonempty. simpl. by rewrite IH.
    - destruct (ascii_dec c a) as [->|_]; [done|].
      rewrite IH. pose proof (split_on_nonempty c s) as Hsplit.
      destruct (split_on c s) as [|w [|w' ws]]; done. }
  split; [exact Hreplace|].
  intros code. unfold indent_code.
  change nl with (String "010" "") at 1. rewrite Hreplace.
  apply join_indented, split_on_nonempty.
Qed.
